(** * STT_shinai: the speech-to-text pipeline, embedded and checked

    A shallow embedding of [backend/core/utils.py], [backend/core/engine.py]
    (class [STTEngine]) and [backend/app.py] (class [SpeechToText]), followed by
    the properties of the media normaliser, the model loader and the
    transcription orchestrator.

    Conventions of the model:
    - a Python [str] is a [string] of ASCII code points; the standard-library
      path functions are those of a POSIX host ([os.path] is [posixpath],
      [pathlib.Path] is a [PosixPath]), except [ntpath.basename], which
      [app.py] calls by name;
    - the outside world (file system, ffmpeg, moviepy, the Whisper model) is a
      record of oracles threaded through a state-and-exception monad;
    - NumPy buffers are lists of samples over an arithmetic interface with two
      instances: IEEE binary64 ([PrimFloat], what NumPy computes with) and
      exact rationals (for laws that hold of every sample). *)

From Stdlib Require Import ZArith QArith Qabs Qround Lia Bool List Ascii String.
From Stdlib Require Import PrimFloat FloatOps SpecFloat Uint63.
From stdpp Require Import base option strings gmap.

Local Open Scope string_scope.
Local Open Scope Z_scope.

(** ** Python [str] operations used by the sources *)

Module PyStr.

(** [c.lower()] for one ASCII code point. *)
Definition lower_char (c : ascii) : ascii :=
  let n := N_of_ascii c in
  if ((65 <=? n) && (n <=? 90))%N then ascii_of_N (n + 32) else c.

(** [c.upper()] for one ASCII code point. *)
Definition upper_char (c : ascii) : ascii :=
  let n := N_of_ascii c in
  if ((97 <=? n) && (n <=? 122))%N then ascii_of_N (n - 32) else c.

(** [s.lower()]. *)
Fixpoint lower (s : string) : string :=
  match s with
  | EmptyString => EmptyString
  | String c r => String (lower_char c) (lower r)
  end.

(** [s.upper()]. *)
Fixpoint upper (s : string) : string :=
  match s with
  | EmptyString => EmptyString
  | String c r => String (upper_char c) (upper r)
  end.

(** [len(s)] as a Python int. *)
Definition len (s : string) : Z := Z.of_nat (String.length s).

(** [s[:n]] for a natural [n]. *)
Fixpoint take (n : nat) (s : string) : string :=
  match n, s with
  | S k, String c r => String c (take k r)
  | _, _ => EmptyString
  end.

(** [s[n:]] for a natural [n]. *)
Fixpoint drop (n : nat) (s : string) : string :=
  match n, s with
  | S k, String _ r => drop k r
  | _, _ => s
  end.

(** [s[:i]] and [s[i:]]; every index the sources slice with is non-negative
    (a negative one is clamped to 0 here, it never occurs). *)
Definition slice_to (s : string) (i : Z) : string := take (Z.to_nat i) s.
Definition slice_from (s : string) (i : Z) : string := drop (Z.to_nat i) s.
Definition slice (s : string) (i j : Z) : string := slice_to (slice_from s i) (j - Z.max i 0).

(** The scan behind [s.rfind(c)]: [acc] is the last match before position [i]. *)
Fixpoint rfind_from (c : ascii) (s : string) (i acc : Z) : Z :=
  match s with
  | EmptyString => acc
  | String a r => rfind_from c r (i + 1) (if Ascii.eqb a c then i else acc)
  end.

(** [s.rfind(c)] for a one-character [c]: the highest index, or -1. *)
Definition rfind (c : ascii) (s : string) : Z := rfind_from c s 0 (-1).

(** The scan behind [s.find(c, start)]. *)
Fixpoint find_from (c : ascii) (s : string) (i start : Z) : Z :=
  match s with
  | EmptyString => -1
  | String a r =>
      if (start <=? i) && Ascii.eqb a c then i else find_from c r (i + 1) start
  end.

(** [s.find(c, start)] for a one-character [c]: the lowest index from [start], or -1. *)
Definition find (c : ascii) (s : string) (start : Z) : Z := find_from c s 0 start.

(** [s.replace(a, b)] for one-character [a] and [b]. *)
Fixpoint replace_char (a b : ascii) (s : string) : string :=
  match s with
  | EmptyString => EmptyString
  | String c r => String (if Ascii.eqb c a then b else c) (replace_char a b r)
  end.

(** [s.startswith(t)]. *)
Fixpoint startswith (t s : string) : bool :=
  match t, s with
  | EmptyString, _ => true
  | String a t', String b s' => Ascii.eqb a b && startswith t' s'
  | String _ _, EmptyString => false
  end.

(** [s.endswith(c)] for a one-character [c]. *)
Fixpoint endswith_char (c : ascii) (s : string) : bool :=
  match s with
  | EmptyString => false
  | String a EmptyString => Ascii.eqb a c
  | String _ r => endswith_char c r
  end.

(** [c in s] for a one-character [c]. *)
Fixpoint has_char (c : ascii) (s : string) : bool :=
  match s with
  | EmptyString => false
  | String a r => Ascii.eqb a c || has_char c r
  end.

(** [t in s]: substring test. *)
Fixpoint contains (t s : string) : bool :=
  startswith t s ||
  match s with
  | EmptyString => false
  | String _ r => contains t r
  end.

(** [s.split(c)] for a one-character [c]: [cur] is the component being read,
    in reverse. *)
Fixpoint split_from (c : ascii) (s : string) (cur : list ascii) : list string :=
  match s with
  | EmptyString => [string_of_list_ascii (rev cur)]
  | String a r =>
      if Ascii.eqb a c then string_of_list_ascii (rev cur) :: split_from c r []
      else split_from c r (a :: cur)
  end.

Definition split (c : ascii) (s : string) : list string := split_from c s [].

(** [sep.join(parts)]. *)
Definition join (sep : string) (parts : list string) : string := String.concat sep parts.

(** Membership of a string in a Python list of strings: [x in l]. *)
Definition in_list (x : string) (l : list string) : bool :=
  existsb (String.eqb x) l.

End PyStr.

(** ** [os.path] on a POSIX host ([posixpath], [genericpath]) *)

Module posixpath.

(** The [while] loop of [genericpath._splitext] over [p[sepIndex+1:dotIndex]]:
    it returns at the first character that is not a dot. *)
Fixpoint has_non_dot (s : string) : bool :=
  match s with
  | EmptyString => false
  | String a r => if Ascii.eqb a "." then has_non_dot r else true
  end.

(** [os.path.splitext(p)]: the extension starts at the last dot of the last
    component; leading dots of that component do not count. *)
Definition splitext (p : string) : string * string :=
  let sepIndex := PyStr.rfind "/" p in
  let dotIndex := PyStr.rfind "." p in
  if dotIndex >? sepIndex then
    if has_non_dot (PyStr.slice p (sepIndex + 1) dotIndex)
    then (PyStr.slice_to p dotIndex, PyStr.slice_from p dotIndex)
    else (p, "")
  else (p, "").

(** [os.path.join(a, b)]. *)
Definition join (a b : string) : string :=
  if PyStr.startswith "/" b then b
  else if String.eqb a "" || PyStr.endswith_char "/" a then a ++ b
  else a ++ "/" ++ b.

End posixpath.

(** ** [ntpath] (CPython 3.11), which [app.py] imports by name *)

Module ntpath.

Definition sep : ascii := "\".
Definition altsep : ascii := "/".

Definition is_sep (c : ascii) : bool := Ascii.eqb c sep || Ascii.eqb c altsep.

(** [ntpath.splitdrive(p)]. *)
Definition splitdrive (p : string) : string * string :=
  if 2 <=? PyStr.len p then
    let normp := PyStr.replace_char altsep sep p in
    if String.eqb (PyStr.slice normp 0 2) "\\" then
      let start :=
        if String.eqb (PyStr.upper (PyStr.slice_to normp 8)) "\\?\UNC\" then 8 else 2 in
      let index := PyStr.find sep normp start in
      if index =? -1 then (p, "")
      else
        let index2 := PyStr.find sep normp (index + 1) in
        if index2 =? -1 then (p, "")
        else (PyStr.slice_to p index2, PyStr.slice_from p index2)
    else if String.eqb (PyStr.slice normp 1 2) ":" then
      (PyStr.slice_to p 2, PyStr.slice_from p 2)
    else ("", p)
  else ("", p).

(** The [while i and p[i-1] not in seps] loop of [ntpath.split], read from the
    front: what follows the last separator ([cur] in reverse). *)
Fixpoint tail_from (s : string) (cur : list ascii) : string :=
  match s with
  | EmptyString => string_of_list_ascii (rev cur)
  | String a r => if is_sep a then tail_from r [] else tail_from r (a :: cur)
  end.

(** [ntpath.basename(p)], that is [ntpath.split(p)[1]]. *)
Definition basename (p : string) : string := tail_from (snd (splitdrive p)) [].

End ntpath.

(** ** [pathlib.Path] on a POSIX host (CPython 3.11) *)

Module pathlib.

(** [Path(p).name]: the last component that is neither empty nor ["."]. *)
Definition name (p : string) : string :=
  List.last
    (List.filter (fun x => negb (String.eqb x "") && negb (String.eqb x "."))
       (PyStr.split "/" p))
    "".

(** [Path(p).suffix]. *)
Definition suffix (p : string) : string :=
  let name := name p in
  let i := PyStr.rfind "." name in
  if (0 <? i) && (i <? PyStr.len name - 1) then PyStr.slice_from name i else "".

(** [Path(p).stem]. *)
Definition stem (p : string) : string :=
  let name := name p in
  let i := PyStr.rfind "." name in
  if (0 <? i) && (i <? PyStr.len name - 1) then PyStr.slice_to name i else name.

End pathlib.


(** ** The faster-whisper interface the sources call *)

Module faster_whisper.

(** A Python value passed as a keyword argument ([PDict]: a dict of ints). *)
Inductive pyval : Type :=
| PNone
| PBool (b : bool)
| PInt (n : Z)
| PStr (s : string)
| PDict (kv : list (string * Z)).

(** [Segment{start, end, text}]. *)
Record Segment := { seg_start : float; seg_end : float; text : string }.

(** [TranscriptionInfo]. *)
Record Info := {
  language : string;
  language_probability : float;
  duration : float;
  all_language_probs : option (list (string * float))
}.

(** The first component of what [model.transcribe] returns. The library hands
    out a generator: an object whose pending items are consumed by iteration.
    A test double may hand out a list, which every iteration reads anew. *)
Inductive segments : Type :=
| Generator (pending : list Segment)
| Materialized (items : list Segment).

(** One full iteration ([for segment in segments]): the items it yields and
    the state the object is left in. *)
Definition iterate (s : segments) : list Segment * segments :=
  match s with
  | Generator pending => (pending, Generator [])
  | Materialized items => (items, Materialized items)
  end.

(** The keyword arguments of [WhisperModel(...)]. *)
Record LoadRequest := {
  req_model_size : string;
  req_device : string;
  req_compute_type : string;
  req_download_root : option string;
  req_cpu_threads : option Z
}.

(** A loaded [WhisperModel]; it remembers how it was built. *)
Record Model := { built_with : LoadRequest }.

(** One call of [model.transcribe(audio, **params)]. *)
Record Invocation := { inv_audio : string; inv_params : gmap string pyval }.

End faster_whisper.

(** ** Exceptions, the world, and the state-and-exception monad *)

Module Py.

(** The exception classes that occur. *)
Inductive exn : Type :=
| CalledProcessError
| TimeoutExpired
| FileNotFoundError
| PermissionError
| OSError
| ValueError
| TypeError
| ImportError
| RuntimeError
| UnboundLocalError
| ZeroDivisionError
| KeyboardInterrupt.

(** [isinstance(e, subprocess.SubprocessError)]. *)
Definition is_SubprocessError (e : exn) : bool :=
  match e with CalledProcessError | TimeoutExpired => true | _ => false end.

(** [isinstance(e, FileNotFoundError)]. *)
Definition is_FileNotFoundError (e : exn) : bool :=
  match e with FileNotFoundError => true | _ => false end.

(** [isinstance(e, OSError)]. *)
Definition is_OSError (e : exn) : bool :=
  match e with FileNotFoundError | PermissionError | OSError => true | _ => false end.

(** [isinstance(e, ImportError)]. *)
Definition is_ImportError (e : exn) : bool :=
  match e with ImportError => true | _ => false end.

(** [isinstance(e, Exception)]: everything but the [BaseException]-only classes. *)
Definition is_Exception (e : exn) : bool :=
  match e with KeyboardInterrupt => false | _ => true end.

Inductive outcome (A : Type) : Type :=
| Returned (a : A)
| Raised (e : exn).
Arguments Returned {A} a.
Arguments Raised {A} e.

(** What a call can observe and change: the files that exist (path to size in
    bytes) and the calls made so far to the model constructor and to the
    inference capability, oldest first. *)
Record world := {
  fs : gmap string N;
  loads : list faster_whisper.LoadRequest;
  infers : list faster_whisper.Invocation
}.

Definition set_fs (f : gmap string N) (w : world) : world :=
  {| fs := f; loads := loads w; infers := infers w |}.

(** A computation over a state [S] that returns or raises. *)
Definition M (S A : Type) : Type := S -> outcome A * S.

Definition ret {S A} (a : A) : M S A := fun s => (Returned a, s).
Definition raise {S A} (e : exn) : M S A := fun s => (Raised e, s).
Definition bind {S A B} (m : M S A) (k : A -> M S B) : M S B :=
  fun s => match m s with
           | (Returned a, s') => k a s'
           | (Raised e, s') => (Raised e, s')
           end.

Declare Scope py_scope.
Delimit Scope py_scope with py.
Notation "x <- m ;; k" := (bind m (fun x => k))
  (at level 100, m at next level, right associativity) : py_scope.
Notation "m ;; k" := (bind m (fun _ => k))
  (at level 100, right associativity) : py_scope.

(** [try: body except ...: handler]: [handler e] is [Some h] when a clause
    matches [e], [None] when the exception propagates. *)
Definition try_except {S A} (body : M S A) (handler : exn -> option (M S A)) : M S A :=
  fun s => match body s with
           | (Returned a, s') => (Returned a, s')
           | (Raised e, s') =>
               match handler e with
               | Some h => h s'
               | None => (Raised e, s')
               end
           end.

(** [try: body finally: final]. *)
Definition try_finally {S A} (body : M S A) (final : M S unit) : M S A :=
  fun s => let '(r, s') := body s in
           match final s' with
           | (Returned _, s'') => (r, s'')
           | (Raised e, s'') => (Raised e, s'')
           end.

(** A function body with one local variable of type [L], initially [l0]. *)
Definition with_local {L A} (l0 : L) (body : M (L * world) A) : M world A :=
  fun w => let '(r, (_, w')) := body (l0, w) in (r, w').
Definition get_local {L} : M (L * world) L := fun s => (Returned (fst s), s).
Definition set_local {L} (l : L) : M (L * world) unit := fun s => (Returned tt, (l, snd s)).
Definition lift {L A} (m : M world A) : M (L * world) A :=
  fun s => let '(r, w') := m (snd s) in (r, (fst s, w')).

(** Reading a local that may not have been assigned yet. *)
Definition read_local {S A} (v : option A) : M S A :=
  match v with Some a => ret a | None => raise UnboundLocalError end.

(** [os.path.exists(p)]. *)
Definition exists_ (p : string) : M world bool :=
  fun w => (Returned (bool_decide (is_Some (fs w !! p))), w).

(** [os.path.getsize(p)]. *)
Definition getsize (p : string) : M world N :=
  fun w => match fs w !! p with
           | Some n => (Returned n, w)
           | None => (Raised FileNotFoundError, w)
           end.

(** [os.unlink(p)], also [os.remove(p)]. *)
Definition unlink (p : string) : M world unit :=
  fun w => match fs w !! p with
           | Some _ => (Returned tt, set_fs (delete p (fs w)) w)
           | None => (Raised FileNotFoundError, w)
           end.

(** The outside world. Each oracle is a function of what the call can see. *)
Record env := {
  (** [tempfile.gettempdir()] *)
  gettempdir : string;
  (** [os.path.expanduser(path)] *)
  expanduser : string -> string;
  (** [os.cpu_count()] *)
  cpu_count : option Z;
  (** [torch.cuda.is_available()] *)
  cuda_is_available : outcome bool;
  (** [torch.zeros(1).cuda()], one addition, [.cpu()] *)
  cuda_liveness : outcome unit;
  (** [import torch] *)
  import_torch : outcome unit;
  (** [subprocess.run(['ffmpeg', '-version'], ..., check=True)] *)
  ffmpeg_version : outcome unit;
  (** [tempfile.NamedTemporaryFile(suffix=..., delete=False)]: the name of the
      file it creates *)
  mkstemp : string -> gmap string N -> outcome string;
  (** [subprocess.run(['ffmpeg', '-i', video, ..., audio], ..., check=True)] *)
  ffmpeg_convert : string -> string -> gmap string N -> outcome unit * gmap string N;
  (** [mp.VideoFileClip(video).audio.write_audiofile(audio, logger=None)] *)
  moviepy_extract : string -> string -> gmap string N -> outcome unit * gmap string N;
  (** [sf.write(path, data, samplerate)] *)
  sf_write : string -> list float -> Z -> gmap string N -> outcome unit * gmap string N;
  (** [WhisperModel] applied to the request as keyword arguments, by the number of earlier constructor calls *)
  WhisperModel : nat -> faster_whisper.LoadRequest -> outcome faster_whisper.Model;
  (** [model.transcribe(audio, **params)] *)
  model_transcribe : string -> gmap string faster_whisper.pyval ->
                     outcome (faster_whisper.segments * faster_whisper.Info)
}.

Section Oracles.
Variable E : env.

(** [with tempfile.NamedTemporaryFile(suffix=suffix, delete=False) as tmp: tmp.name] *)
Definition NamedTemporaryFile (suffix : string) : M world string :=
  fun w => match mkstemp E suffix (fs w) with
           | Returned name => (Returned name, set_fs (<[name := 0%N]> (fs w)) w)
           | Raised e => (Raised e, w)
           end.

Definition run_ffmpeg_version : M world unit :=
  fun w => (ffmpeg_version E, w).

Definition run_ffmpeg_convert (video_path audio_path : string) : M world unit :=
  fun w => let '(r, f) := ffmpeg_convert E video_path audio_path (fs w) in (r, set_fs f w).

Definition write_audiofile (video_path audio_file : string) : M world unit :=
  fun w => let '(r, f) := moviepy_extract E video_path audio_file (fs w) in (r, set_fs f w).

Definition soundfile_write (path : string) (data : list float) (rate : Z) : M world unit :=
  fun w => let '(r, f) := sf_write E path data rate (fs w) in (r, set_fs f w).

(** [WhisperModel] applied to the request as keyword arguments; the call is logged. *)
Definition new_WhisperModel (request : faster_whisper.LoadRequest) : M world faster_whisper.Model :=
  fun w => (WhisperModel E (List.length (loads w)) request,
            {| fs := fs w; loads := loads w ++ [request]; infers := infers w |}).

(** [self.model.transcribe(audio, **params)]; the call is logged. *)
Definition call_transcribe (audio : string) (params : gmap string faster_whisper.pyval)
  : M world (faster_whisper.segments * faster_whisper.Info) :=
  fun w => (model_transcribe E audio params,
            {| fs := fs w; loads := loads w;
               infers := infers w ++ [{| faster_whisper.inv_audio := audio;
                                         faster_whisper.inv_params := params |}] |}).

End Oracles.

(** [os.unlink(p)] on a host that may refuse a deletion: [refused p] is what
    the call raises for a file that is there. *)
Definition unlink_unless (refused : string -> option exn) (p : string) : M world unit :=
  fun w => match fs w !! p with
           | Some _ =>
               match refused p with
               | Some e => (Raised e, w)
               | None => (Returned tt, set_fs (delete p (fs w)) w)
               end
           | None => (Raised FileNotFoundError, w)
           end.

(** The microphone: [sd.rec(frames, samplerate=..., channels=..., dtype='float32')]
    followed by [sd.wait()], by the three numbers passed. *)
Definition recorder : Type := Z -> Z -> Z -> outcome (list float).

End Py.

(** ** NumPy: the array operations [normalize_audio] calls *)

Module numpy.

Import Py.

(** Pure code that returns or raises. *)
Definition and_then {A B} (o : outcome A) (k : A -> outcome B) : outcome B :=
  match o with
  | Returned a => k a
  | Raised e => Raised e
  end.

Notation "x <-- m ;; k" := (and_then m (fun x => k))
  (at level 100, m at next level, right associativity) : py_scope.

(** The arithmetic of one sample type. *)
Class Scalar (A : Type) := {
  of_int : Z -> A;
  add : A -> A -> A;
  sub : A -> A -> A;
  mul : A -> A -> A;
  div : A -> A -> A;
  abs : A -> A;
  ltb : A -> A -> bool;
  leb : A -> A -> bool;
  eqb : A -> A -> bool;
  is_nan : A -> bool;
  (** the ceiling as an integer; [None] when there is none (NaN, infinity) *)
  ceil : A -> option Z
}.

(** IEEE binary64, NumPy's [float64]. *)
Definition float_of_int (z : Z) : float :=
  if z <? 0 then PrimFloat.opp (PrimFloat.of_uint63 (Uint63.of_Z (- z)))
  else PrimFloat.of_uint63 (Uint63.of_Z z).

Definition float_ceil (x : float) : option Z :=
  match Prim2SF x with
  | S754_zero _ => Some 0
  | S754_finite s m e =>
      let num := if s then Z.neg m else Z.pos m in
      if 0 <=? e then Some (num * 2 ^ e)
      else Some (- ((- num) / 2 ^ (- e)))
  | S754_infinity _ => None
  | S754_nan => None
  end.

#[export] Instance float64 : Scalar float := {|
  of_int := float_of_int;
  add := PrimFloat.add;
  sub := PrimFloat.sub;
  mul := PrimFloat.mul;
  div := PrimFloat.div;
  abs := PrimFloat.abs;
  ltb := PrimFloat.ltb;
  leb := PrimFloat.leb;
  eqb := PrimFloat.eqb;
  is_nan := PrimFloat.is_nan;
  ceil := float_ceil
|}.

(** Exact rational arithmetic: binary64 without rounding and without NaN. *)
#[export] Instance exact : Scalar Q := {|
  of_int := inject_Z;
  add := Qplus;
  sub := Qminus;
  mul := Qmult;
  div := Qdiv;
  abs := Qabs;
  ltb := fun x y => negb (Qle_bool y x);
  leb := Qle_bool;
  eqb := Qeq_bool;
  is_nan := fun _ => false;
  ceil := fun x => Some (Qceiling x)
|}.

Section Arrays.
Context {A : Type} `{Scalar A}.

(** [np.abs(a)]. *)
Definition np_abs (a : list A) : list A := map abs a.

(** [np.maximum] on two scalars: a NaN on the left is kept. *)
Definition maximum (x y : A) : A := if leb y x || is_nan x then x else y.

(** [np.max(a)]: a reduction, undefined on an empty array. *)
Definition np_max (a : list A) : outcome A :=
  match a with
  | [] => Raised ValueError
  | x :: r => Returned (fold_left maximum r x)
  end.

(** [a / m] for an array [a] and a scalar [m]. *)
Definition np_divide (a : list A) (m : A) : list A := map (fun x => div x m) a.

(** [np.arange(0, n)] for an int [n], as the float64 array [np.interp] makes
    of it. *)
Definition arange_int (n : nat) : list A := map (fun i => of_int (Z.of_nat i)) (seq 0 n).

(** [np.arange(start, stop, step)] on floats: the length is
    [ceil((stop - start) / step)]; the first two items are [start] and
    [start + step], item [i] is [start + i * delta] for the difference
    [delta] of the first two. *)
Definition arange (start stop step : A) : outcome (list A) :=
  match ceil (div (sub stop start) step) with
  | None => Raised ValueError
  | Some length =>
      let next := add start step in
      let delta := sub next start in
      Returned
        (map (fun i => match i with
                       | O => start
                       | S O => next
                       | _ => add start (mul (of_int (Z.of_nat i)) delta)
                       end)
             (seq 0 (Z.to_nat length)))
  end.

(** The index [np.interp] looks up for [key] in the ascending [arr]: -1 below
    the first point, [len(arr)] above the last one, else the last [j] with
    [arr[j] <= key]. *)
Definition binary_search (key : A) (arr : list A) : Z :=
  if ltb (List.last arr key) key then Z.of_nat (List.length arr)
  else if ltb key (hd key arr) then -1
  else Z.of_nat (List.length (List.filter (fun a => leb a key) arr)) - 1.

(** One item of [np.interp(x, xp, fp)], with [left] and [right] at their
    defaults [fp[0]] and [fp[-1]]. *)
Definition interp1 (xp fp : list A) (x_val : A) : A :=
  let d := of_int 0 in
  let lval := hd d fp in
  let rval := List.last fp d in
  match xp with
  | [xp_val] =>
      if ltb x_val xp_val then lval else if ltb xp_val x_val then rval else hd d fp
  | _ =>
      if is_nan x_val then x_val
      else
        let j := binary_search x_val xp in
        let lenxp := Z.of_nat (List.length xp) in
        let dx := fun k => nth (Z.to_nat k) xp d in
        let dy := fun k => nth (Z.to_nat k) fp d in
        if j =? -1 then lval
        else if j =? lenxp then rval
        else if j =? lenxp - 1 then dy j
        else if eqb (dx j) x_val then dy j
        else
          let slope := div (sub (dy (j + 1)) (dy j)) (sub (dx (j + 1)) (dx j)) in
          let r := add (mul slope (sub x_val (dx j))) (dy j) in
          if is_nan r then
            let r' := add (mul slope (sub x_val (dx (j + 1)))) (dy (j + 1)) in
            if is_nan r' && eqb (dy j) (dy (j + 1)) then dy j else r'
          else r
  end.

(** [np.interp(x, xp, fp)] on one-dimensional arrays. *)
Definition interp (x xp fp : list A) : outcome (list A) :=
  match xp with
  | [] => Raised ValueError
  | _ =>
      if negb (Nat.eqb (List.length fp) (List.length xp)) then Raised ValueError
      else Returned (map (interp1 xp fp) x)
  end.

End Arrays.

End numpy.

(** ** [backend/core/utils.py] *)

Module utils.

Import Py numpy.
Local Open Scope py_scope.

Definition SUPPORTED_VIDEO_FORMATS : list string :=
  [".mp4"; ".mkv"; ".avi"; ".mov"; ".wmv"; ".flv"; ".webm"].

Definition is_video_file (file_path : string) : bool :=
  let '(_, ext) := posixpath.splitext file_path in
  PyStr.in_list (PyStr.lower ext) SUPPORTED_VIDEO_FORMATS.

Definition is_audio_file (file_path : string) : bool :=
  let '(_, ext) := posixpath.splitext file_path in
  PyStr.in_list (PyStr.lower ext) [".wav"; ".mp3"; ".flac"; ".ogg"; ".m4a"].

Section WithEnv.
Variable E : env.

Definition check_ffmpeg_available : M world bool :=
  try_except
    (run_ffmpeg_version E ;; ret true)
    (fun e => if is_SubprocessError e || is_FileNotFoundError e
              then Some (ret false) else None).

(** The body shared by the two [except] clauses of [convert_video_to_audio];
    the local [audio_path] is read where the [with] block may not have
    assigned it. *)
Definition convert_cleanup : M (option string * world) (string * bool) :=
  l <- get_local ;;
  audio_path <- read_local l ;;
  present <- lift (exists_ audio_path) ;;
  (if present : bool then lift (unlink audio_path) else ret tt) ;;
  ret ("", false).

Definition convert_video_to_audio (video_path output_format : string)
  : M world (string * bool) :=
  available <- check_ffmpeg_available ;;
  if negb available then ret ("", false)
  else
    with_local (None : option string)
      (try_except
         (audio_path <- lift (NamedTemporaryFile E ("." ++ output_format)) ;;
          set_local (Some audio_path) ;;
          lift (run_ffmpeg_convert E video_path audio_path) ;;
          present <- lift (exists_ audio_path) ;;
          nonempty <- (if present : bool
                       then size <- lift (getsize audio_path) ;; ret (0 <? size)%N
                       else ret false) ;;
          if nonempty : bool then ret (audio_path, true) else ret ("", false))
         (fun e =>
            if is_SubprocessError e then Some convert_cleanup
            else if is_Exception e then Some convert_cleanup
            else None)).

End WithEnv.

Section Normalize.
Context {A : Type} `{Scalar A}.

Definition normalize_audio (audio_data : list A) (sample_rate : Z) : outcome (list A) :=
  audio_data <--
    (if negb (sample_rate =? 16000) then
       if sample_rate =? 0 then Raised ZeroDivisionError
       else
         let ratio := div (of_int 16000) (of_int sample_rate) in
         let n := List.length audio_data in
         x <-- arange (of_int 0) (mul (of_int (Z.of_nat n)) ratio) ratio ;;
         interp x (arange_int n) audio_data
     else Returned audio_data) ;;
  peak <-- np_max (np_abs audio_data) ;;
  if ltb (of_int 0) peak then
    peak <-- np_max (np_abs audio_data) ;;
    Returned (np_divide audio_data peak)
  else Returned audio_data.

End Normalize.

Section ReadAudio.
Context {A : Type} `{Scalar A}.

(** What [sf.read(file_path)] returns first: a one-dimensional array for a
    file with one channel, else one row per frame, of two channels or more. *)
Inductive sound : Type :=
| Mono (samples : list A)
| Multi (rows : list (A * A * list A)).

(** [audio_data.mean(axis=1)]: the sum of each row over its length; the row
    is added up from its first sample on. *)
Definition mean_axis1 (rows : list (A * A * list A)) : list A :=
  map (fun row => let '(a, b, rest) := row in
                  div (fold_left add rest (add a b))
                      (of_int (Z.of_nat (S (S (List.length rest))))))
      rows.

(** [sf.read]: the samples and the sample rate of the file at a path. *)
Variable sf_read : string -> gmap string N -> outcome (sound * Z).

Definition read_audio_file (file_path : string) : M world (list A * Z) :=
  try_except
    (read <- (fun w => (sf_read file_path (fs w), w)) ;;
     let '(audio_data, sample_rate) := read in
     let audio_data :=
       match audio_data with
       | Mono samples => samples
       | Multi rows => mean_axis1 rows
       end in
     audio_data <- (fun w => (normalize_audio audio_data sample_rate, w)) ;;
     ret (audio_data, 16000))
    (fun e => if is_Exception e then Some (raise e) else None).

End ReadAudio.

Section Cleanup.
Variable refused : string -> option exn.

(** [cleanup_temp_files(file_list)]; an entry may be [None]. *)
Fixpoint cleanup_temp_files (file_list : list (option string)) : M world unit :=
  match file_list with
  | [] => ret tt
  | file_path :: rest =>
      match file_path with
      | Some p =>
          if String.eqb p "" then ret tt
          else
            present <- exists_ p ;;
            if present : bool then
              try_except
                (unlink_unless refused p)
                (fun e => if is_Exception e then Some (ret tt) else None)
            else ret tt
      | None => ret tt
      end ;;
      cleanup_temp_files rest
  end.

End Cleanup.

Definition get_available_whisper_models : list string :=
  ["tiny"; "base"; "small"; "medium"; "large-v1"; "large-v2"; "large-v3"].

End utils.

(** ** [backend/core/engine.py]: class [STTEngine] *)

Module STTEngine.

Import Py faster_whisper.
Local Open Scope py_scope.

Definition SUPPORTED_VIDEO_FORMATS : list string :=
  [".mp4"; ".avi"; ".mov"; ".mkv"; ".flv"; ".wmv"; ".webm"].

(** The attributes of an engine object. *)
Record t := {
  model_size : string;
  use_gpu : bool;
  device : option string;
  compute_type : option string;
  download_root : string;
  cpu_threads : Z;
  language : option string;
  sample_rate : Z;
  channels : Z;
  model : option Model
}.

Definition set_device (d : string) (self : t) : t :=
  {| model_size := model_size self; use_gpu := use_gpu self; device := Some d;
     compute_type := compute_type self; download_root := download_root self;
     cpu_threads := cpu_threads self; language := language self;
     sample_rate := sample_rate self; channels := channels self; model := model self |}.

Definition set_compute_type (c : string) (self : t) : t :=
  {| model_size := model_size self; use_gpu := use_gpu self; device := device self;
     compute_type := Some c; download_root := download_root self;
     cpu_threads := cpu_threads self; language := language self;
     sample_rate := sample_rate self; channels := channels self; model := model self |}.

Definition set_model_size (m : string) (self : t) : t :=
  {| model_size := m; use_gpu := use_gpu self; device := device self;
     compute_type := compute_type self; download_root := download_root self;
     cpu_threads := cpu_threads self; language := language self;
     sample_rate := sample_rate self; channels := channels self; model := model self |}.

Definition set_model (m : Model) (self : t) : t :=
  {| model_size := model_size self; use_gpu := use_gpu self; device := device self;
     compute_type := compute_type self; download_root := download_root self;
     cpu_threads := cpu_threads self; language := language self;
     sample_rate := sample_rate self; channels := channels self; model := Some m |}.

(** Which attempt of [_load_model] an error message is about. *)
Inductive stage : Type := Primary | Fallback | Tiny.

(** One entry of the local list [error_messages]: the f-string's parts. *)
Record failure := {
  fail_stage : stage;
  fail_device : string;
  fail_compute_type : string;
  fail_error : exn
}.

(** The local variables of [_load_model], next to [self]. *)
Record frame := {
  self : t;
  success : bool;
  error_messages : list failure
}.

(** The input of [transcribe]: a path, or a NumPy array of samples. *)
Inductive audio_input : Type :=
| InPath (path : string)
| InArray (samples : list float).

(** The [details] dictionary [transcribe] returns. *)
Record details := {
  d_language : string;
  d_language_probability : float;
  d_duration : float;
  d_all_languages_probs : option (list (string * float));
  d_segments_count : Z;
  d_model_size : string;
  d_device : option string;
  d_compute_type : option string
}.

(** [a or b] on optional strings: [a] unless it is [None] or empty. *)
Definition or_str (a b : option string) : option string :=
  match a with
  | Some s => if String.eqb s "" then b else a
  | None => b
  end.

Definition val_of_language (l : option string) : pyval :=
  match l with Some s => PStr s | None => PNone end.

Definition _is_video_file (file_path : string) : bool :=
  let ext := PyStr.lower (pathlib.suffix file_path) in
  PyStr.in_list ext SUPPORTED_VIDEO_FORMATS.

(** The local [audio_file] of [_extract_audio_from_video], for the directory
    [tempfile.gettempdir()] returns. *)
Definition audio_file_of (temp_dir video_path : string) : string :=
  let video_filename := pathlib.stem video_path in
  posixpath.join temp_dir (video_filename ++ "_audio.wav").

Section WithEnv.
Variable E : env.

Definition _is_cuda_available : M world bool :=
  try_except
    (available <- (fun w => (cuda_is_available E, w)) ;;
     if negb available then ret false
     else
       try_except
         ((fun w => (cuda_liveness E, w)) ;; ret true)
         (fun e => if is_Exception e then Some (ret false) else None))
    (fun e => if is_Exception e then Some (ret false) else None).

(** The attribute assignments of [__init__], before it calls [_load_model]. *)
Definition new (model_size : string) (use_gpu : bool) (device compute_type : option string)
  (download_root : option string) (cpu_threads : option Z) (language : option string) : t :=
  {| model_size := model_size;
     use_gpu := use_gpu;
     device := device;
     compute_type := compute_type;
     download_root :=
       match or_str download_root None with
       | Some d => d
       | None => expanduser E "~/.cache/whisper"
       end;
     cpu_threads :=
       match cpu_threads with
       | Some n => if n =? 0 then
                     match cpu_count E with
                     | Some c => if c =? 0 then 4 else c
                     | None => 4
                     end
                   else n
       | None => match cpu_count E with
                 | Some c => if c =? 0 then 4 else c
                 | None => 4
                 end
       end;
     language := language;
     sample_rate := 16000;
     channels := 1;
     model := None |}.

Definition get_self : M (frame * world) t :=
  f <- get_local ;; ret (self f).

Definition put_self (s : t) : M (frame * world) unit :=
  f <- get_local ;;
  set_local {| self := s; success := success f; error_messages := error_messages f |}.

Definition set_success : M (frame * world) unit :=
  f <- get_local ;;
  set_local {| self := self f; success := true; error_messages := error_messages f |}.

Definition append_error (m : failure) : M (frame * world) unit :=
  f <- get_local ;;
  set_local {| self := self f; success := success f;
               error_messages := error_messages f ++ [m] |}.

(** The keyword arguments one attempt builds; [cpu_threads] only on the CPU. *)
Definition kwargs_of (s : t) (device compute_type : string) : LoadRequest :=
  {| req_model_size := model_size s;
     req_device := device;
     req_compute_type := compute_type;
     req_download_root := Some (download_root s);
     req_cpu_threads := if String.eqb device "cpu" then Some (cpu_threads s) else None |}.

(** The list [fallback_configs] for the device of the first attempt. *)
Definition fallback_configs (device : string) : list (string * string) :=
  if String.eqb device "cuda" then
    [("cuda", "int8_float16"); ("cuda", "int8"); ("cpu", "int8")]
  else
    [("cpu", "int8_float16"); ("cpu", "int8")].

(** The [for config in fallback_configs] loop: it stops at the first
    constructor call that returns. *)
Fixpoint try_fallbacks (configs : list (string * string)) : M (frame * world) unit :=
  match configs with
  | [] => ret tt
  | (device, compute_type) :: rest =>
      loaded <-
        try_except
          (s <- get_self ;;
           m <- lift (new_WhisperModel E (kwargs_of s device compute_type)) ;;
           put_self (set_compute_type compute_type (set_device device (set_model m s))) ;;
           set_success ;;
           ret true)
          (fun e =>
             if is_Exception e then
               Some (append_error {| fail_stage := Fallback; fail_device := device;
                                     fail_compute_type := compute_type; fail_error := e |} ;;
                     ret false)
             else None) ;;
      if loaded : bool then ret tt else try_fallbacks rest
  end.

(** The device [_load_model] settles on when none was given. *)
Definition select_device (s : t) : M world string :=
  match device s with
  | None =>
      cuda <- (if use_gpu s then _is_cuda_available else ret false) ;;
      ret (if cuda : bool then "cuda" else "cpu")
  | Some d => ret d
  end.

(** The compute type [_load_model] settles on for the device [d] when none
    was given. *)
Definition select_compute_type (s : t) (d : string) : string :=
  match compute_type s with
  | None =>
      if String.eqb d "cuda" then "float16"
      else if PyStr.in_list (model_size s) ["medium"; "large-v1"; "large-v2"; "large-v3"]
           then "int8" else "int8_float16"
  | Some c => c
  end.

(** The body of [_load_model], over its locals. *)
Definition _load_model_body : M (frame * world) unit :=
  (* device selection *)
  s <- get_self ;;
  d <- lift (select_device s) ;;
  put_self (set_device d s) ;;
  (* compute type selection *)
  s <- get_self ;;
  let c := select_compute_type s d in
  put_self (set_compute_type c s) ;;
  (* first attempt *)
  s <- get_self ;;
  try_except
    (m <- lift (new_WhisperModel E (kwargs_of s d c)) ;;
     put_self (set_model m s) ;;
     set_success)
    (fun e =>
       if is_Exception e then
         Some (append_error {| fail_stage := Primary; fail_device := d;
                               fail_compute_type := c; fail_error := e |})
       else None) ;;
  (* fallback configurations *)
  f <- get_local ;;
  (if negb (success f) then try_fallbacks (fallback_configs d) else ret tt) ;;
  (* the tiny model as a last resort *)
  f <- get_local ;;
  (if negb (success f) && negb (String.eqb (model_size (self f)) "tiny") then
     try_except
       (s <- get_self ;;
        m <- lift (new_WhisperModel E
                     {| req_model_size := "tiny"; req_device := "cpu";
                        req_compute_type := "int8";
                        req_download_root := Some (download_root s);
                        req_cpu_threads := None |}) ;;
        put_self (set_compute_type "int8" (set_device "cpu" (set_model_size "tiny" (set_model m s)))) ;;
        set_success)
       (fun e =>
          if is_Exception e then
            Some (append_error {| fail_stage := Tiny; fail_device := "cpu";
                                  fail_compute_type := "int8"; fail_error := e |})
          else None)
   else ret tt) ;;
  f <- get_local ;;
  if negb (success f) then raise RuntimeError else ret tt.

(** [self._load_model()]: the engine as the call leaves it. *)
Definition _load_model (s : t) : M world t :=
  with_local {| self := s; success := false; error_messages := [] |}
    (_load_model_body ;; get_self).

(** [STTEngine(model_size, use_gpu, device, compute_type, download_root,
    cpu_threads, language)]. *)
Definition __init__ (model_size : string) (use_gpu : bool) (device compute_type : option string)
  (download_root : option string) (cpu_threads : option Z) (language : option string)
  : M world t :=
  _load_model (new model_size use_gpu device compute_type download_root cpu_threads language).

Definition _extract_audio_from_video (video_path : string) : M world string :=
  let audio_file := audio_file_of (gettempdir E) video_path in
  try_except
    (write_audiofile E video_path audio_file ;; ret audio_file)
    (fun e => if is_Exception e then Some (raise RuntimeError) else None).

(** The dictionary [transcribe_params] after [update(kwargs)]. *)
Definition transcribe_params (s : t) (language : option string) (kwargs : gmap string pyval)
  : gmap string pyval :=
  kwargs ∪
  <["beam_size" := PInt 3]>
  (<["language" := val_of_language (or_str language (STTEngine.language s))]>
  (<["vad_filter" := PBool true]>
  (<["vad_parameters" := PDict [("min_silence_duration_ms", 500)]]>
  (<["condition_on_previous_text" := PBool false]> ∅)))).

Definition transcribe (s : t) (input : audio_input) (language : option string)
  (kwargs : gmap string pyval) : M world (string * details) :=
  let transcribe_params := transcribe_params s language kwargs in
  (* temp_file = None *)
  with_local (None : option string)
    (try_finally
       (audio_path <-
          match input with
          | InArray samples =>
              temp_file <- lift (NamedTemporaryFile E ".wav") ;;
              set_local (Some temp_file) ;;
              lift (soundfile_write E temp_file samples (sample_rate s)) ;;
              ret temp_file
          | InPath path => ret path
          end ;;
        audio_path <-
          (if _is_video_file audio_path
           then lift (_extract_audio_from_video audio_path)
           else ret audio_path) ;;
        result <- lift (call_transcribe E audio_path transcribe_params) ;;
        let '(segments, info) := result in
        (* " ".join([segment.text for segment in segments]) *)
        let '(yielded, segments) := iterate segments in
        let text := PyStr.join " " (map faster_whisper.text yielded) in
        (* sum(1 for _ in segments) *)
        let '(yielded_again, segments) := iterate segments in
        ret (text,
             {| d_language := faster_whisper.language info;
                d_language_probability := language_probability info;
                d_duration := duration info;
                d_all_languages_probs := all_language_probs info;
                d_segments_count := Z.of_nat (List.length yielded_again);
                d_model_size := model_size s;
                d_device := device s;
                d_compute_type := compute_type s |}))
       (temp_file <- get_local ;;
        match temp_file with
        | Some f =>
            if String.eqb f "" then ret tt
            else
              present <- lift (exists_ f) ;;
              if present : bool then lift (unlink f) else ret tt
        | None => ret tt
        end)).

Section Microphone.
Variable sd_rec : recorder.

Definition record_audio (s : t) (duration : Z) : M world (list float) :=
  fun w => (sd_rec (sample_rate s * duration) (sample_rate s) (channels s), w).

(** [transcribe_microphone(duration, **kwargs)]; [language] is the keyword
    that [transcribe] binds to its own parameter, [kwargs] the others. *)
Definition transcribe_microphone (s : t) (duration : Z) (language : option string)
  (kwargs : gmap string pyval) : M world (string * details) :=
  audio_data <- record_audio s duration ;;
  transcribe s (InArray audio_data) language kwargs.

End Microphone.

Definition save_audio (s : t) (audio_data : list float) (filename : string) : M world string :=
  soundfile_write E filename audio_data (sample_rate s) ;;
  ret filename.

End WithEnv.

End STTEngine.

(** ** [backend/app.py]: class [SpeechToText] *)

Module SpeechToText.

Import Py faster_whisper.
Local Open Scope py_scope.

(** The attributes of a converter object. *)
Record t := {
  sample_rate : Z;
  channels : Z;
  model_size : string;
  model : option Model
}.

(** The [details] dictionary [transcribe] returns. *)
Record details := {
  d_language : string;
  d_language_probability : float;
  d_duration : float;
  d_segments_count : Z
}.

Definition is_video_file (file_path : string) : bool :=
  let '(_, ext) := posixpath.splitext file_path in
  let ext := PyStr.lower ext in
  let video_extensions := [".mp4"; ".avi"; ".mov"; ".mkv"; ".flv"; ".wmv"] in
  PyStr.in_list ext video_extensions.

(** The local [audio_file] of [extract_audio_from_video], for the directory
    [tempfile.gettempdir()] returns. *)
Definition audio_file_of (temp_dir video_file : string) : string :=
  let video_filename := ntpath.basename video_file in
  posixpath.join temp_dir (fst (posixpath.splitext video_filename) ++ "_audio.wav").

Section WithEnv.
Variable E : env.

Definition is_cuda_available : M world bool :=
  try_except
    ((fun w => (import_torch E, w)) ;;
     available <- (fun w => (cuda_is_available E, w)) ;;
     if negb available then ret false
     else
       try_except
         ((fun w => (cuda_liveness E, w)) ;; ret true)
         (fun e => if is_Exception e then Some (ret false) else None))
    (fun e =>
       if is_ImportError e then Some (ret false)
       else if is_Exception e then Some (ret false)
       else None).

(** The two constructor calls of [__init__] pass the size positionally and no
    [download_root] or [cpu_threads]. *)
Definition request (model_size device compute_type : string) : LoadRequest :=
  {| req_model_size := model_size; req_device := device;
     req_compute_type := compute_type; req_download_root := None;
     req_cpu_threads := None |}.

(** [SpeechToText(model_size, force_gpu)]. *)
Definition __init__ (model_size : string) (force_gpu : bool) : M world t :=
  let s := {| sample_rate := 16000; channels := 1; model_size := model_size; model := None |} in
  cuda_available <- is_cuda_available ;;
  loaded <-
    (if cuda_available && force_gpu then
       try_except
         (m <- new_WhisperModel E (request model_size "cuda" "float16") ;;
          ret (Some m))
         (fun e => if is_Exception e then Some (ret None) else None)
     else ret None) ;;
  match loaded with
  | Some m =>
      ret {| sample_rate := 16000; channels := 1; model_size := model_size; model := Some m |}
  | None =>
      m <- new_WhisperModel E (request model_size "cpu" "int8") ;;
      ret {| sample_rate := 16000; channels := 1; model_size := model_size; model := Some m |}
  end.

Definition extract_audio_from_video (video_file : string) : M world string :=
  let audio_file := audio_file_of (gettempdir E) video_file in
  try_except
    (write_audiofile E video_file audio_file ;; ret audio_file)
    (fun e => if is_Exception e then Some (raise e) else None).

(** The keyword arguments of the one [model.transcribe] call. *)
Definition transcribe_params (language : option string) : gmap string pyval :=
  <["beam_size" := PInt 5]>
  (<["language" := match language with Some l => PStr l | None => PNone end]> ∅).

Definition transcribe (audio_file : string) (language : option string)
  : M world (string * details) :=
  audio_file <-
    (if is_video_file audio_file then extract_audio_from_video audio_file
     else ret audio_file) ;;
  result <- call_transcribe E audio_file (transcribe_params language) ;;
  let '(segments, info) := result in
  (* " ".join([segment.text for segment in segments]) *)
  let '(yielded, segments) := iterate segments in
  let transcription := PyStr.join " " (map faster_whisper.text yielded) in
  (* len(list(segments)) *)
  let '(yielded_again, segments) := iterate segments in
  let details :=
    {| d_language := faster_whisper.language info;
       d_language_probability := language_probability info;
       d_duration := duration info;
       d_segments_count := Z.of_nat (List.length yielded_again) |} in
  (if PyStr.contains "_audio.wav" audio_file && PyStr.contains (gettempdir E) audio_file then
     try_except
       (unlink audio_file)
       (fun e => if is_OSError e then Some (ret tt) else None)
   else ret tt) ;;
  ret (transcription, details).

Definition save_audio_to_file (s : t) (audio_data : list float) (filename : string)
  : M world string :=
  soundfile_write E filename audio_data (sample_rate s) ;;
  ret filename.

Section Microphone.
Variable sd_rec : recorder.

Definition record_audio (s : t) (duration : Z) : M world (list float) :=
  fun w => (sd_rec (sample_rate s * duration) (sample_rate s) (channels s), w).

Definition transcribe_from_microphone (s : t) (duration : Z) : M world string :=
  audio_data <- record_audio s duration ;;
  temp_filename <- NamedTemporaryFile E ".wav" ;;
  save_audio_to_file s audio_data temp_filename ;;
  result <- transcribe temp_filename None ;;
  let '(transcription, _) := result in
  unlink temp_filename ;;
  ret transcription.

End Microphone.

End WithEnv.

End SpeechToText.

(** ** Concrete worlds the properties are evaluated in *)

Module Scenario.

Import Py faster_whisper.

(** The segments [("Hello", 0.0, 1.0)] and [("world", 1.0, 2.0)]. *)
Definition hello_world : list Segment :=
  [ {| seg_start := 0; seg_end := 1; text := "Hello" |};
    {| seg_start := 1; seg_end := 2; text := "world" |} ].

(** [{language: "en", language_probability: 0.95, duration: 2.0}]; the
    probability is the binary64 value nearest to 0.95. *)
Definition info_en : Info :=
  {| language := "en"; language_probability := 0x1.e666666666666p-1; duration := 2;
     all_language_probs := None |}.

(** A host: CUDA is usable, ffmpeg and moviepy write their output file; the
    ffmpeg probe, the creation of temporary files, the model constructor and
    the inference capability are as given. *)
Definition host (probe : outcome unit) (temp : string -> gmap string N -> outcome string)
  (constructor : nat -> LoadRequest -> outcome Model)
  (inference : outcome (segments * Info)) : env := {|
  gettempdir := "/tmp";
  expanduser := fun path => "/home/stt" ++ PyStr.slice_from path 1;
  cpu_count := Some 8;
  cuda_is_available := Returned true;
  cuda_liveness := Returned tt;
  import_torch := Returned tt;
  ffmpeg_version := probe;
  mkstemp := temp;
  ffmpeg_convert := fun _ out f => (Returned tt, <[out := 32044%N]> f);
  moviepy_extract := fun _ out f => (Returned tt, <[out := 32044%N]> f);
  sf_write := fun path _ _ f => (Returned tt, <[path := 44%N]> f);
  WhisperModel := constructor;
  model_transcribe := fun _ _ => inference
|}.

(** Creating a temporary file fails only for a suffix that names a directory
    which is not there. *)
Definition temp_ok (suffix : string) (_ : gmap string N) : outcome string :=
  if PyStr.has_char "/" suffix then Raised FileNotFoundError
  else Returned ("/tmp/tmpab12cd" ++ suffix).

Definition loads_ok (_ : nat) (request : LoadRequest) : outcome Model :=
  Returned {| built_with := request |}.

(** A host on which everything works, and inference yields [segs]. *)
Definition working (segs : segments) : env :=
  host (Returned tt) temp_ok loads_ok (Returned (segs, info_en)).

(** The same host with an inference capability that raises. *)
Definition inference_fails : env :=
  host (Returned tt) temp_ok loads_ok (Raised RuntimeError).

(** The same host where the first [failing] constructor calls raise and every
    later one returns. *)
Definition loads_fail (failing : nat) : env :=
  host (Returned tt) temp_ok
    (fun attempt request =>
       if (attempt <? failing)%nat then Raised RuntimeError
       else Returned {| built_with := request |})
    (Returned (Generator [], info_en)).

(** The same host with a temporary directory nothing can be created in. *)
Definition unwritable_tmp : env :=
  host (Returned tt) (fun _ _ => Raised PermissionError) loads_ok
    (Returned (Generator [], info_en)).

(** The same host with an [ffmpeg] on the path that may not be executed. *)
Definition ffmpeg_not_executable : env :=
  host (Raised PermissionError) temp_ok loads_ok (Returned (Generator [], info_en)).

(** A file system that holds one video and one recording. *)
Definition disk : world :=
  {| fs := <["/videos/clip.mp4" := 1048576%N]> (<["/audio/speech.wav" := 64044%N]> ∅);
     loads := []; infers := [] |}.

(** [STTEngine(model_size="medium")] before and after [_load_model] on the
    working host. *)
Definition fresh_engine : STTEngine.t :=
  STTEngine.new (working (Generator [])) "medium" true None None None None None.

Definition engine : STTEngine.t :=
  STTEngine.set_model
    {| built_with := STTEngine.kwargs_of fresh_engine "cuda" "float16" |}
    (STTEngine.set_compute_type "float16" (STTEngine.set_device "cuda" fresh_engine)).

(** [transcribe] on the video, where inference returns and where it raises. *)
Definition engine_on_video_ok :=
  STTEngine.transcribe (working (Generator hello_world)) engine
    (STTEngine.InPath "/videos/clip.mp4") None ∅ disk.

Definition engine_on_video_raise :=
  STTEngine.transcribe inference_fails engine
    (STTEngine.InPath "/videos/clip.mp4") None ∅ disk.

Definition app_on_video_ok :=
  SpeechToText.transcribe (working (Generator hello_world)) "/videos/clip.mp4" None disk.

Definition app_on_video_raise :=
  SpeechToText.transcribe inference_fails "/videos/clip.mp4" None disk.

(** [transcribe] on the recording, on the working host. *)
Definition engine_on_audio :=
  STTEngine.transcribe (working (Generator hello_world)) engine
    (STTEngine.InPath "/audio/speech.wav") None ∅ disk.

Definition app_on_audio :=
  SpeechToText.transcribe (working (Generator hello_world)) "/audio/speech.wav" None disk.

(** What the inference calls logged in [w] passed for the keyword [key]. *)
Definition invoked_with (key : string) (w : world) : list (option pyval) :=
  map (fun call => inv_params call !! key) (infers w).

(** The device and precision of the constructor calls logged in [w]. *)
Definition attempts (w : world) : list (string * string) :=
  map (fun request => (req_device request, req_compute_type request)) (loads w).

(** [SpeechToText("medium", force_gpu=True)] where the first [failing]
    constructor calls raise. *)
Definition app_init (failing : nat) :=
  SpeechToText.__init__ (loads_fail failing) "medium" true disk.

(** [STTEngine("medium")._load_model()] where the first [failing] constructor
    calls raise: the outcome, the locals and the world it ends with. *)
Definition engine_load (failing : nat) :=
  STTEngine._load_model_body (loads_fail failing)
    ({| STTEngine.self := fresh_engine; STTEngine.success := false;
        STTEngine.error_messages := [] |}, disk).

(** [convert_video_to_audio] on the video. *)
Definition convert_on (E : env) (output_format : string) :=
  utils.convert_video_to_audio E "/videos/clip.mp4" output_format disk.

(** [np.zeros(n)]. *)
Definition zeros (n : nat) : list float := repeat 0%float n.

(** [normalize_audio] on a float64 array, and on exact samples. *)
Definition normalize_float64 (audio_data : list float) (sample_rate : Z) :=
  utils.normalize_audio (H := numpy.float64) audio_data sample_rate.

Definition normalize_exact (audio_data : list Q) (sample_rate : Z) :=
  utils.normalize_audio (H := numpy.exact) audio_data sample_rate.

(** The details [STTEngine.transcribe] reports on [working] hosts for a
    generator: no segment is counted. *)
Definition hello_details : STTEngine.details :=
  {| STTEngine.d_language := "en";
     STTEngine.d_language_probability := 0x1.e666666666666p-1;
     STTEngine.d_duration := 2;
     STTEngine.d_all_languages_probs := None;
     STTEngine.d_segments_count := 0;
     STTEngine.d_model_size := "medium";
     STTEngine.d_device := Some "cuda";
     STTEngine.d_compute_type := Some "float16" |}.

(** The working host on which no model can be built. *)
Definition no_model_loads : env :=
  host (Returned tt) temp_ok (fun _ _ => Raised RuntimeError) (Returned (Generator [], info_en)).

(** The working host with a moviepy that cannot read the video. *)
Definition unreadable_video : env := {|
  gettempdir := "/tmp";
  expanduser := fun path => "/home/stt" ++ PyStr.slice_from path 1;
  cpu_count := Some 8;
  cuda_is_available := Returned true;
  cuda_liveness := Returned tt;
  import_torch := Returned tt;
  ffmpeg_version := Returned tt;
  mkstemp := temp_ok;
  ffmpeg_convert := fun _ out f => (Returned tt, <[out := 32044%N]> f);
  moviepy_extract := fun _ _ f => (Raised OSError, f);
  sf_write := fun path _ _ f => (Returned tt, <[path := 44%N]> f);
  WhisperModel := loads_ok;
  model_transcribe := fun _ _ => Returned (Generator hello_world, info_en)
|}.

(** A host without PyTorch: [import torch] raises, and so would every use of
    the module. *)
Definition no_torch : env := {|
  gettempdir := "/tmp";
  expanduser := fun path => "/home/stt" ++ PyStr.slice_from path 1;
  cpu_count := Some 8;
  cuda_is_available := Raised ImportError;
  cuda_liveness := Raised ImportError;
  import_torch := Raised ImportError;
  ffmpeg_version := Returned tt;
  mkstemp := temp_ok;
  ffmpeg_convert := fun _ out f => (Returned tt, <[out := 32044%N]> f);
  moviepy_extract := fun _ out f => (Returned tt, <[out := 32044%N]> f);
  sf_write := fun path _ _ f => (Returned tt, <[path := 44%N]> f);
  WhisperModel := loads_ok;
  model_transcribe := fun _ _ => Returned (Generator hello_world, info_en)
|}.

(** A microphone that delivers silence, as many samples as asked for. *)
Definition silent_microphone : recorder :=
  fun frames _ _ => Returned (repeat 0%float (Z.to_nat frames)).

(** A file system that also holds a recording in the temporary directory
    whose name ends like an extracted sound track. *)
Definition disk_with_notes : world :=
  {| fs := <["/tmp/notes_audio.wav" := 64044%N]> (fs disk); loads := []; infers := [] |}.

(** [SpeechToText("medium")] after its constructor, on the working host. *)
Definition converter : SpeechToText.t :=
  {| SpeechToText.sample_rate := 16000; SpeechToText.channels := 1;
     SpeechToText.model_size := "medium";
     SpeechToText.model :=
       Some {| built_with := SpeechToText.request "medium" "cuda" "float16" |} |}.

(** An [sf.read] that finds two frames of two channels at 44.1 kHz in every
    file that exists. *)
Definition two_channel_reader (path : string) (files : gmap string N)
  : outcome (utils.sound (A := Q) * Z) :=
  match files !! path with
  | Some _ => Returned (utils.Multi [((1 # 2)%Q, (1 # 4)%Q, []); (0%Q, (- (1 # 2))%Q, [])], 44100)
  | None => Raised FileNotFoundError
  end.

End Scenario.

(** ** Vocabulary of the properties *)

Module Observe.

Import Py faster_whisper.

(** The default inference profile, as a property of the keyword arguments of
    one inference call. *)
Definition default_profile (params : gmap string pyval) : Prop :=
  params !! "beam_size" = Some (PInt 3) /\
  params !! "vad_filter" = Some (PBool true) /\
  params !! "vad_parameters" = Some (PDict [("min_silence_duration_ms", 500)]) /\
  params !! "condition_on_previous_text" = Some (PBool false).

(** [m] makes at most [n] inference calls, each satisfying [P], and leaves
    the calls logged before it in place ([proj] finds the world in the
    state). *)
Definition appends {S A} (proj : S -> world) (n : nat) (P : Invocation -> Prop) (m : M S A) : Prop :=
  forall s, exists calls,
    infers (proj (snd (m s))) = (infers (proj s) ++ calls)%list /\
    (List.length calls <= n)%nat /\ Forall P calls.

(** A sample of zero amplitude: binary64 has a positive and a negative zero. *)
Definition is_zero (x : float) : Prop := x = 0%float \/ x = (-0)%float.

(** The [ffmpeg -version] probe ended in one of the two exception classes
    [check_ffmpeg_available] catches. *)
Definition probe_caught (o : outcome unit) : Prop :=
  match o with
  | Returned _ => False
  | Raised e => is_SubprocessError e || is_FileNotFoundError e = true
  end.

(** The engine [s] holds the model that the last constructor call logged in
    [w] returned, and its [model_size], [device] and [compute_type] are those
    that call was made with. *)
Definition loaded_as (E : env) (s : STTEngine.t) (w : world) : Prop :=
  exists earlier request m,
    loads w = (earlier ++ [request])%list /\
    WhisperModel E (List.length earlier) request = Returned m /\
    STTEngine.model s = Some m /\
    req_model_size request = STTEngine.model_size s /\
    STTEngine.device s = Some (req_device request) /\
    STTEngine.compute_type s = Some (req_compute_type request).

(** The attributes of an engine that loading a model has no business with. *)
Definition same_settings (s s' : STTEngine.t) : Prop :=
  STTEngine.use_gpu s' = STTEngine.use_gpu s /\
  STTEngine.download_root s' = STTEngine.download_root s /\
  STTEngine.cpu_threads s' = STTEngine.cpu_threads s /\
  STTEngine.language s' = STTEngine.language s /\
  STTEngine.sample_rate s' = STTEngine.sample_rate s /\
  STTEngine.channels s' = STTEngine.channels s.

End Observe.

(** * Properties *)

(** ** Proof automation *)

(** Case analysis on the innermost scrutinee of a nest of matches. *)
Ltac destruct_innermost x :=
  lazymatch x with
  | context [match ?y with _ => _ end] => destruct_innermost y
  | _ => destruct x
  end.

Ltac destruct_innermost_eqn x :=
  lazymatch x with
  | context [match ?y with _ => _ end] => destruct_innermost_eqn y
  | _ => destruct x eqn:?
  end.

(** ** Strings and paths *)

Section StringFacts.

Lemma append_cons (c : ascii) (s t : string) : String c s ++ t = String c (s ++ t).
Proof. reflexivity. Qed.

Lemma append_nil_l (t : string) : "" ++ t = t.
Proof. reflexivity. Qed.

Lemma length_append (s t : string) :
  String.length (s ++ t) = (String.length s + String.length t)%nat.
Proof.
  induction s as [|c s IH]; [reflexivity |].
  rewrite append_cons. simpl. now rewrite IH.
Qed.

Lemma append_nil_r (s : string) : s ++ "" = s.
Proof.
  induction s as [|c s IH]; [reflexivity |].
  now rewrite append_cons, IH.
Qed.

Lemma append_assoc (s t u : string) : (s ++ t) ++ u = s ++ (t ++ u).
Proof.
  induction s as [|c s IH]; [reflexivity |].
  now rewrite !append_cons, IH.
Qed.

Lemma append_inv_head (s t u : string) : s ++ t = s ++ u -> t = u.
Proof.
  induction s as [|c s IH]; [trivial |].
  rewrite !append_cons. intros Heq. injection Heq. exact IH.
Qed.

Lemma append_inv_tail (s t u : string) : s ++ u = t ++ u -> s = t.
Proof.
  revert t. induction s as [|c s IH]; intros [|d t] Heq.
  - reflexivity.
  - apply (f_equal String.length) in Heq. rewrite !length_append in Heq. simpl in Heq. lia.
  - apply (f_equal String.length) in Heq. rewrite !length_append in Heq. simpl in Heq. lia.
  - rewrite !append_cons in Heq. injection Heq as -> Heq. f_equal. now apply IH.
Qed.

(** Lower-casing never creates or removes a dot or a separator. *)
Lemma lower_char_eqb_dot (a : ascii) :
  Ascii.eqb (PyStr.lower_char a) "." = Ascii.eqb a ".".
Proof. destruct a as [[] [] [] [] [] [] [] []]; reflexivity. Qed.

Lemma lower_char_eqb_slash (a : ascii) :
  Ascii.eqb (PyStr.lower_char a) "/" = Ascii.eqb a "/".
Proof. destruct a as [[] [] [] [] [] [] [] []]; reflexivity. Qed.

Lemma lower_app (s t : string) : PyStr.lower (s ++ t) = PyStr.lower s ++ PyStr.lower t.
Proof.
  induction s as [|c s IH]; [reflexivity |].
  rewrite append_cons. simpl. now rewrite append_cons, IH.
Qed.

Lemma take_lower (n : nat) (s : string) :
  PyStr.take n (PyStr.lower s) = PyStr.lower (PyStr.take n s).
Proof.
  revert s. induction n as [|n IH]; intros [|c s]; simpl; try reflexivity.
  now rewrite IH.
Qed.

Lemma drop_lower (n : nat) (s : string) :
  PyStr.drop n (PyStr.lower s) = PyStr.lower (PyStr.drop n s).
Proof.
  revert s. induction n as [|n IH]; intros [|c s]; simpl; try reflexivity.
  now rewrite IH.
Qed.

Lemma rfind_from_lower (c : ascii) (s : string) (i acc : Z) :
  (forall a, Ascii.eqb (PyStr.lower_char a) c = Ascii.eqb a c) ->
  PyStr.rfind_from c (PyStr.lower s) i acc = PyStr.rfind_from c s i acc.
Proof.
  intros Hc. revert i acc. induction s as [|a s IH]; intros i acc; simpl.
  - reflexivity.
  - now rewrite Hc, IH.
Qed.

Lemma has_non_dot_lower (s : string) :
  posixpath.has_non_dot (PyStr.lower s) = posixpath.has_non_dot s.
Proof.
  induction s as [|a s IH]; simpl; [reflexivity |].
  rewrite lower_char_eqb_dot, IH. reflexivity.
Qed.

(** [os.path.splitext] commutes with lower-casing. *)
Lemma splitext_lower (p : string) :
  posixpath.splitext (PyStr.lower p) =
  (PyStr.lower (fst (posixpath.splitext p)), PyStr.lower (snd (posixpath.splitext p))).
Proof.
  unfold posixpath.splitext, PyStr.rfind, PyStr.slice, PyStr.slice_to, PyStr.slice_from.
  rewrite !rfind_from_lower by (apply lower_char_eqb_dot || apply lower_char_eqb_slash).
  rewrite !drop_lower, !take_lower, has_non_dot_lower.
  destruct (_ >? _); [destruct (posixpath.has_non_dot _) |]; reflexivity.
Qed.

End StringFacts.

(** ** [os.path.splitext] on a path with a given extension *)

Section Splitext.

Lemma rfind_from_app (c : ascii) (s t : string) (i acc : Z) :
  PyStr.rfind_from c (s ++ t) i acc =
  PyStr.rfind_from c t (i + PyStr.len s) (PyStr.rfind_from c s i acc).
Proof.
  revert i acc. induction s as [|a s IH]; intros i acc.
  - rewrite append_nil_l. unfold PyStr.len. simpl. now rewrite Z.add_0_r.
  - rewrite append_cons. cbn [PyStr.rfind_from]. rewrite IH. f_equal.
    unfold PyStr.len. cbn [String.length]. lia.
Qed.

Lemma rfind_from_absent (c : ascii) (t : string) (i acc : Z) :
  PyStr.has_char c t = false -> PyStr.rfind_from c t i acc = acc.
Proof.
  revert i acc. induction t as [|a t IH]; intros i acc Ht; [reflexivity |].
  cbn [PyStr.has_char PyStr.rfind_from] in *. apply orb_false_iff in Ht as [-> Ht].
  now apply IH.
Qed.

Lemma rfind_from_range (c : ascii) (s : string) (i acc : Z) :
  PyStr.rfind_from c s i acc = acc \/
  i <= PyStr.rfind_from c s i acc < i + PyStr.len s.
Proof.
  revert i acc. induction s as [|a s IH]; intros i acc; [now left |].
  cbn [PyStr.rfind_from]. unfold PyStr.len in *. cbn [String.length].
  destruct (IH (i + 1) (if Ascii.eqb a c then i else acc)) as [-> | Hr].
  - destruct (Ascii.eqb a c); [right; lia | now left].
  - right. lia.
Qed.

Lemma take_app_length (r e : string) : PyStr.take (String.length r) (r ++ e) = r.
Proof.
  induction r as [|a r IH]; [now destruct e |].
  rewrite append_cons. cbn. now rewrite IH.
Qed.

Lemma drop_app (k : nat) (r e : string) :
  (k <= String.length r)%nat -> PyStr.drop k (r ++ e) = PyStr.drop k r ++ e.
Proof.
  revert r. induction k as [|k IH]; intros r Hk; [now destruct r |].
  destruct r as [|a r]; [cbn in Hk; lia |].
  rewrite append_cons. cbn [PyStr.drop]. apply IH. cbn in Hk. lia.
Qed.

Lemma length_drop (k : nat) (r : string) :
  String.length (PyStr.drop k r) = (String.length r - k)%nat.
Proof.
  revert r. induction k as [|k IH]; intros [|a r]; cbn; try reflexivity; try lia. apply IH.
Qed.

Lemma drop_app_length (r e : string) : PyStr.drop (String.length r) (r ++ e) = e.
Proof.
  induction r as [|a r IH]; [now destruct e |].
  rewrite append_cons. cbn. exact IH.
Qed.

Lemma take_drop_app (k : nat) (r e : string) :
  (k <= String.length r)%nat ->
  PyStr.take (String.length r - k) (PyStr.drop k (r ++ e)) = PyStr.drop k r.
Proof.
  intros Hk. rewrite drop_app by assumption.
  rewrite <- (length_drop k r). apply take_app_length.
Qed.

(** A suffix that is a dot followed by neither dot nor separator is the
    extension, provided the file name before it is not made of dots. *)
Lemma splitext_app (r e : string) :
  PyStr.has_char "." e = false -> PyStr.has_char "/" e = false ->
  posixpath.has_non_dot (PyStr.slice_from r (PyStr.rfind "/" r + 1)) = true ->
  posixpath.splitext (r ++ String "." e) = (r, String "." e).
Proof.
  intros Hdot Hsep Hname.
  unfold posixpath.splitext, PyStr.rfind, PyStr.slice, PyStr.slice_to, PyStr.slice_from in *.
  rewrite !rfind_from_app. cbn [PyStr.rfind_from]. cbn [Ascii.eqb Bool.eqb].
  rewrite !rfind_from_absent by assumption.
  set (sep := PyStr.rfind_from "/" r 0 (-1)) in *.
  assert (Hrange : -1 <= sep < PyStr.len r)
    by (destruct (rfind_from_range "/" r 0 (-1)) as [H | H]; fold sep in H; unfold PyStr.len in *; lia).
  unfold PyStr.len in *.
  replace (0 + Z.of_nat (String.length r) >? sep) with true by (symmetry; apply Z.gtb_lt; lia).
  replace (Z.to_nat (0 + Z.of_nat (String.length r))) with (String.length r) by lia.
  replace (Z.to_nat (0 + Z.of_nat (String.length r) - Z.max (sep + 1) 0))
    with (String.length r - Z.to_nat (sep + 1))%nat by lia.
  rewrite take_drop_app by lia. rewrite Hname.
  now rewrite take_app_length, drop_app_length.
Qed.

End Splitext.

(** ** The media normaliser: classification by extension *)

Section Classification.

Lemma utils_is_video_file_lower (p : string) :
  utils.is_video_file p =
  PyStr.in_list (snd (posixpath.splitext (PyStr.lower p))) utils.SUPPORTED_VIDEO_FORMATS.
Proof.
  unfold utils.is_video_file. rewrite splitext_lower.
  destruct (posixpath.splitext p) as [root ext]. reflexivity.
Qed.

Lemma utils_is_audio_file_lower (p : string) :
  utils.is_audio_file p =
  PyStr.in_list (snd (posixpath.splitext (PyStr.lower p)))
    [".wav"; ".mp3"; ".flac"; ".ogg"; ".m4a"].
Proof.
  unfold utils.is_audio_file. rewrite splitext_lower.
  destruct (posixpath.splitext p) as [root ext]. reflexivity.
Qed.

Lemma app_is_video_file_lower (p : string) :
  SpeechToText.is_video_file p =
  PyStr.in_list (snd (posixpath.splitext (PyStr.lower p)))
    [".mp4"; ".avi"; ".mov"; ".mkv"; ".flv"; ".wmv"].
Proof.
  unfold SpeechToText.is_video_file. rewrite splitext_lower.
  destruct (posixpath.splitext p) as [root ext]. reflexivity.
Qed.

(** C10 — Extension classification is case-insensitive: for every path
    [root ++ ext] and every variant [ext'] of [ext] that differs from it only
    in letter case (both lower-case to the same string), [is_video_file] and
    [is_audio_file] of [utils.py] and [SpeechToText.is_video_file] of
    [app.py] return the same result on [root ++ ext'] as on [root ++ ext],
    because the extension is lower-cased before the membership test. *)
Theorem classification_ignores_extension_case (root ext ext' : string) :
  PyStr.lower ext' = PyStr.lower ext ->
  utils.is_video_file (root ++ ext') = utils.is_video_file (root ++ ext) /\
  utils.is_audio_file (root ++ ext') = utils.is_audio_file (root ++ ext) /\
  SpeechToText.is_video_file (root ++ ext') = SpeechToText.is_video_file (root ++ ext).
Proof.
  intros Hcase.
  assert (Hpath : PyStr.lower (root ++ ext') = PyStr.lower (root ++ ext))
    by (rewrite !lower_app; congruence).
  rewrite !utils_is_video_file_lower, !utils_is_audio_file_lower,
    !app_is_video_file_lower, Hpath.
  repeat split.
Qed.

(** [".MP4"] classifies exactly like [".mp4"]. *)
Lemma classification_ignores_extension_case_witness :
  PyStr.lower ".MP4" = PyStr.lower ".mp4" /\
  (utils.is_video_file ("/media/clip" ++ ".MP4") = utils.is_video_file ("/media/clip" ++ ".mp4") /\
   utils.is_audio_file ("/media/clip" ++ ".MP4") = utils.is_audio_file ("/media/clip" ++ ".mp4") /\
   SpeechToText.is_video_file ("/media/clip" ++ ".MP4") =
   SpeechToText.is_video_file ("/media/clip" ++ ".mp4")).
Proof.
  split; [reflexivity |].
  apply (classification_ignores_extension_case "/media/clip" ".mp4" ".MP4"). reflexivity.
Defined.

(** C5 — the three extension tests at ["clip.webm"]: [utils.is_video_file] and
    [STTEngine._is_video_file] classify it as video, as the claim says;
    [SpeechToText.is_video_file], whose list has no [".webm"], does not. *)
Theorem webm_is_not_video_for_SpeechToText :
  utils.is_video_file "clip.webm" = true /\
  STTEngine._is_video_file "clip.webm" = true /\
  SpeechToText.is_video_file "clip.webm" = false.
Proof. repeat split. Qed.

Lemma in_list_In (x : string) (l : list string) : PyStr.in_list x l = true <-> In x l.
Proof.
  unfold PyStr.in_list. rewrite existsb_exists. split.
  - intros (y & Hy & Heq). apply String.eqb_eq in Heq. now subst.
  - intros Hx. exists x. split; [exact Hx | apply String.eqb_refl].
Qed.

Lemma in_list_not_In (x : string) (l : list string) : ~ In x l -> PyStr.in_list x l = false.
Proof.
  intros Hx. destruct (PyStr.in_list x l) eqn:H; [| reflexivity].
  apply in_list_In in H. contradiction.
Qed.

Lemma final_name_lower (root : string) :
  posixpath.has_non_dot
    (PyStr.slice_from (PyStr.lower root) (PyStr.rfind "/" (PyStr.lower root) + 1)) =
  posixpath.has_non_dot (PyStr.slice_from root (PyStr.rfind "/" root + 1)).
Proof.
  unfold PyStr.rfind, PyStr.slice_from.
  rewrite rfind_from_lower by apply lower_char_eqb_slash.
  now rewrite drop_lower, has_non_dot_lower.
Qed.

(** X3 — classification by extension in [utils.py]: for every path
    [root ++ ext] whose file name before [ext] has a character other than a
    dot, an [ext] that is, up to letter case, one of [.mp4 .avi .mov .mkv
    .flv .wmv .webm] makes the path video and not audio, and one of [.wav
    .mp3 .flac .ogg .m4a] makes it audio and not video; and every path whose
    extension is none of the twelve is neither. *)
Theorem utils_classifies_by_extension (root ext : string) :
  posixpath.has_non_dot (PyStr.slice_from root (PyStr.rfind "/" root + 1)) = true ->
  (In (PyStr.lower ext) [".mp4"; ".avi"; ".mov"; ".mkv"; ".flv"; ".wmv"; ".webm"] ->
     utils.is_video_file (root ++ ext) = true /\ utils.is_audio_file (root ++ ext) = false) /\
  (In (PyStr.lower ext) [".wav"; ".mp3"; ".flac"; ".ogg"; ".m4a"] ->
     utils.is_audio_file (root ++ ext) = true /\ utils.is_video_file (root ++ ext) = false) /\
  (forall path,
     ~ In (PyStr.lower (snd (posixpath.splitext path)))
         [".mp4"; ".avi"; ".mov"; ".mkv"; ".flv"; ".wmv"; ".webm";
          ".wav"; ".mp3"; ".flac"; ".ogg"; ".m4a"] ->
     utils.is_video_file path = false /\ utils.is_audio_file path = false).
Proof.
  intros Hname. rewrite <- final_name_lower in Hname.
  rewrite utils_is_video_file_lower, utils_is_audio_file_lower, lower_app.
  split; [| split].
  1-2: intros Hext; cbn [In] in Hext;
    repeat (destruct Hext as [<- | Hext]); try contradiction;
    rewrite splitext_app by (reflexivity || exact Hname); split; reflexivity.
  intros path Hother. unfold utils.is_video_file, utils.is_audio_file.
  destruct (posixpath.splitext path) as [r e]. cbn [snd] in Hother.
  split; apply in_list_not_In; intros Hin; apply Hother;
    unfold utils.SUPPORTED_VIDEO_FORMATS in *; cbn [In] in *; tauto.
Qed.

(** ["/media/clip.MP4"] is video and not audio. *)
Lemma utils_classifies_by_extension_witness :
  utils.is_video_file ("/media/clip" ++ ".MP4") = true /\
  utils.is_audio_file ("/media/clip" ++ ".MP4") = false.
Proof.
  apply (proj1 (utils_classifies_by_extension "/media/clip" ".MP4" eq_refl)).
  left. reflexivity.
Defined.

End Classification.

(** ** The media normaliser: the temporary extraction path *)

Section ExtractionPath.

Lemma has_char_of_list (c : ascii) (l : list ascii) :
  PyStr.has_char c (string_of_list_ascii l) = existsb (fun a => Ascii.eqb a c) l.
Proof. induction l as [|a l IH]; simpl; [reflexivity | now rewrite IH]. Qed.

Lemma existsb_rev {A} (f : A -> bool) (l : list A) : existsb f (rev l) = existsb f l.
Proof.
  induction l as [|a l IH]; simpl; [reflexivity |].
  rewrite existsb_app, IH. simpl. destruct (f a), (existsb f l); reflexivity.
Qed.

Lemma has_char_take (c : ascii) (n : nat) (s : string) :
  PyStr.has_char c s = false -> PyStr.has_char c (PyStr.take n s) = false.
Proof.
  revert s. induction n as [|n IH]; intros [|a s]; simpl; try reflexivity.
  intros Hs. apply orb_false_iff in Hs as [Ha Hs]. rewrite Ha. simpl. now apply IH.
Qed.

(** No component that [s.split(c)] returns contains [c]. *)
Lemma split_from_no_char (c : ascii) (s : string) (cur : list ascii) :
  existsb (fun a => Ascii.eqb a c) cur = false ->
  Forall (fun x => PyStr.has_char c x = false) (PyStr.split_from c s cur).
Proof.
  revert cur. induction s as [|a s IH]; intros cur Hcur; simpl.
  - constructor; [| constructor]. now rewrite has_char_of_list, existsb_rev.
  - destruct (Ascii.eqb a c) eqn:Hac.
    + constructor; [now rewrite has_char_of_list, existsb_rev | now apply IH].
    + apply IH. simpl. now rewrite Hac.
Qed.

Lemma last_Forall {A} (P : A -> Prop) (l : list A) (d : A) :
  P d -> Forall P l -> P (List.last l d).
Proof.
  intros Hd Hl. induction Hl as [|x l Hx Hl IH]; [exact Hd |].
  destruct l; [exact Hx | exact IH].
Qed.

Lemma Forall_filter_keep {A} (P : A -> Prop) (f : A -> bool) (l : list A) :
  Forall P l -> Forall P (List.filter f l).
Proof.
  induction 1 as [|x l Hx Hl IH]; simpl; [constructor |].
  destruct (f x); [constructor |]; assumption.
Qed.

Lemma name_no_slash (p : string) : PyStr.has_char "/" (pathlib.name p) = false.
Proof.
  unfold pathlib.name.
  apply (last_Forall (fun x => PyStr.has_char "/" x = false)); [reflexivity |].
  apply Forall_filter_keep, split_from_no_char. reflexivity.
Qed.

Lemma stem_no_slash (p : string) : PyStr.has_char "/" (pathlib.stem p) = false.
Proof.
  unfold pathlib.stem, PyStr.slice_to.
  destruct (_ && _); [apply has_char_take |]; apply name_no_slash.
Qed.

(** What [ntpath.basename] returns contains neither separator. *)
Lemma tail_from_no_slash (s : string) (cur : list ascii) :
  existsb (fun a => Ascii.eqb a "/") cur = false ->
  PyStr.has_char "/" (ntpath.tail_from s cur) = false.
Proof.
  revert cur. induction s as [|a s IH]; intros cur Hcur; simpl.
  - now rewrite has_char_of_list, existsb_rev.
  - destruct (ntpath.is_sep a) eqn:Hsep; [now apply IH |].
    apply IH. simpl. rewrite Hcur.
    unfold ntpath.is_sep, ntpath.altsep in Hsep.
    apply orb_false_iff in Hsep as [_ ->]. reflexivity.
Qed.

Lemma splitext_root_no_slash (b : string) :
  PyStr.has_char "/" b = false -> PyStr.has_char "/" (fst (posixpath.splitext b)) = false.
Proof.
  intros Hb. unfold posixpath.splitext, PyStr.slice_to.
  destruct (_ >? _); [destruct (posixpath.has_non_dot _) |]; simpl; auto using has_char_take.
Qed.

Lemma startswith_slash_app (x t : string) :
  PyStr.has_char "/" x = false -> PyStr.startswith "/" t = false ->
  PyStr.startswith "/" (x ++ t) = false.
Proof.
  intros Hx Ht. destruct x as [|a x]; [exact Ht |].
  rewrite append_cons. cbn [PyStr.startswith PyStr.has_char] in *.
  apply orb_false_iff in Hx as [Ha _].
  rewrite Ascii.eqb_sym, Ha. reflexivity.
Qed.

(** [os.path.join(temp_dir, x + "_audio.wav")] determines [x] when [x] holds
    no separator. *)
Lemma join_audio_inj (temp_dir x y : string) :
  PyStr.has_char "/" x = false -> PyStr.has_char "/" y = false ->
  posixpath.join temp_dir (x ++ "_audio.wav") = posixpath.join temp_dir (y ++ "_audio.wav") ->
  x = y.
Proof.
  intros Hx Hy. unfold posixpath.join.
  rewrite !startswith_slash_app by (assumption || reflexivity).
  destruct (_ || _); intros Heq.
  - apply append_inv_head in Heq. now apply append_inv_tail in Heq.
  - apply append_inv_head in Heq. apply (append_inv_head "/") in Heq.
    now apply append_inv_tail in Heq.
Qed.

(** C6, as stated, fails: two distinct video inputs whose file names agree
    (here in two directories) get one and the same temporary extraction path,
    in [STTEngine] and in [SpeechToText] alike. *)
Lemma distinct_videos_share_temp_path :
  "/a/clip.mp4" <> "/b/clip.mp4" /\
  STTEngine._is_video_file "/a/clip.mp4" = true /\
  STTEngine._is_video_file "/b/clip.mp4" = true /\
  STTEngine.audio_file_of "/tmp" "/a/clip.mp4" = "/tmp/clip_audio.wav" /\
  STTEngine.audio_file_of "/tmp" "/b/clip.mp4" = "/tmp/clip_audio.wav" /\
  SpeechToText.is_video_file "/a/clip.mp4" = true /\
  SpeechToText.is_video_file "/b/clip.mp4" = true /\
  SpeechToText.audio_file_of "/tmp" "/a/clip.mp4" = "/tmp/clip_audio.wav" /\
  SpeechToText.audio_file_of "/tmp" "/b/clip.mp4" = "/tmp/clip_audio.wav".
Proof. split; [discriminate | repeat split]. Qed.

(** C6, amended — the temporary extraction path is a function of the input's
    file-name stem and of nothing else: for every temporary directory and
    every pair of inputs, the two derived paths are equal exactly when the
    stems are equal ([Path(p).stem] in [STTEngine]; the root that
    [os.path.splitext] leaves of [ntpath.basename(p)] in [SpeechToText]). So
    inputs with different stems never share a temporary path, and inputs with
    the same stem always do. *)
Theorem temp_path_determined_by_stem (temp_dir p q : string) :
  (STTEngine.audio_file_of temp_dir p = STTEngine.audio_file_of temp_dir q <->
   pathlib.stem p = pathlib.stem q) /\
  (SpeechToText.audio_file_of temp_dir p = SpeechToText.audio_file_of temp_dir q <->
   fst (posixpath.splitext (ntpath.basename p)) = fst (posixpath.splitext (ntpath.basename q))).
Proof.
  unfold STTEngine.audio_file_of, SpeechToText.audio_file_of. split; split.
  - apply join_audio_inj; apply stem_no_slash.
  - now intros ->.
  - apply join_audio_inj; apply splitext_root_no_slash, tail_from_no_slash; reflexivity.
  - now intros ->.
Qed.

End ExtractionPath.

(** ** The transcription orchestrator *)

Section Orchestrator.

Import Py faster_whisper Scenario.

(** C1 — [transcribe] on a capability that yields ["Hello"] and ["world"]
    through a generator, as faster-whisper does: the text is
    ["Hello world"], but the reported count is 0 and not 2, in [STTEngine] and
    in [SpeechToText] alike, because the join has already consumed the
    generator when the count iterates it again. Only a capability that hands
    out a re-iterable list gets the count 2. *)
Theorem segment_count_lost_after_join :
  (exists d,
     fst (STTEngine.transcribe (working (Generator hello_world)) engine
            (STTEngine.InPath "/audio/speech.wav") None ∅ disk) = Returned ("Hello world", d) /\
     STTEngine.d_language d = "en" /\ STTEngine.d_segments_count d = 0) /\
  (exists d,
     fst (SpeechToText.transcribe (working (Generator hello_world))
            "/audio/speech.wav" None disk) = Returned ("Hello world", d) /\
     SpeechToText.d_language d = "en" /\ SpeechToText.d_segments_count d = 0) /\
  (exists d,
     fst (STTEngine.transcribe (working (Materialized hello_world)) engine
            (STTEngine.InPath "/audio/speech.wav") None ∅ disk) = Returned ("Hello world", d) /\
     STTEngine.d_segments_count d = 2).
Proof.
  repeat split; eexists; (split; [vm_compute; reflexivity | repeat split]).
Qed.

(** C2 — the extracted audio after [transcribe] on the video
    ["/videos/clip.mp4"], whose extraction writes ["/tmp/clip_audio.wav"]:
    [STTEngine.transcribe] leaves the file on disk both when it returns a
    result and when inference raises; [SpeechToText.transcribe] removes it
    when it returns and leaves it when inference raises. *)
Theorem extracted_audio_left_on_disk :
  (* STTEngine, inference returns: the file is still there *)
  (exists r, fst engine_on_video_ok = Returned r) /\
  fs (snd engine_on_video_ok) !! "/tmp/clip_audio.wav" = Some 32044%N /\
  (* STTEngine, inference raises: the file is still there *)
  fst engine_on_video_raise = Raised RuntimeError /\
  fs (snd engine_on_video_raise) !! "/tmp/clip_audio.wav" = Some 32044%N /\
  (* SpeechToText, inference returns: the file is gone *)
  (exists r, fst app_on_video_ok = Returned r) /\
  fs (snd app_on_video_ok) !! "/tmp/clip_audio.wav" = None /\
  (* SpeechToText, inference raises: the file is still there *)
  fst app_on_video_raise = Raised RuntimeError /\
  fs (snd app_on_video_raise) !! "/tmp/clip_audio.wav" = Some 32044%N.
Proof.
  repeat split; try (eexists; vm_compute; reflexivity); vm_compute; reflexivity.
Qed.

(** C4 — the keyword arguments of the inference call with no caller
    overrides. [STTEngine.transcribe] passes the whole default profile (beam
    width 3, VAD filtering on with a minimum silence of 500 ms, no
    conditioning on previous text). [SpeechToText.transcribe] passes a beam
    width of 5 and the language and nothing else: neither the VAD keywords nor
    [condition_on_previous_text] reach the capability. *)
Theorem app_call_lacks_default_profile :
  invoked_with "beam_size" (snd engine_on_audio) = [Some (PInt 3)] /\
  invoked_with "vad_filter" (snd engine_on_audio) = [Some (PBool true)] /\
  invoked_with "vad_parameters" (snd engine_on_audio) =
    [Some (PDict [("min_silence_duration_ms", 500)])] /\
  invoked_with "condition_on_previous_text" (snd engine_on_audio) = [Some (PBool false)] /\
  invoked_with "beam_size" (snd app_on_audio) = [Some (PInt 5)] /\
  invoked_with "vad_filter" (snd app_on_audio) = [None] /\
  invoked_with "vad_parameters" (snd app_on_audio) = [None] /\
  invoked_with "condition_on_previous_text" (snd app_on_audio) = [None].
Proof. repeat split; vm_compute; reflexivity. Qed.

End Orchestrator.

(** ** The inference calls of a computation *)

Section CallLogRules.

Import Py faster_whisper Observe.

Lemma appends_weaken {S A} (proj : S -> world) (n n' : nat) P (m : M S A) :
  (n <= n')%nat -> appends proj n P m -> appends proj n' P m.
Proof.
  intros Hn Hm s. destruct (Hm s) as (calls & Heq & Hlen & HP).
  exists calls. repeat split; [exact Heq | lia | exact HP].
Qed.

Lemma appends_silent {S A} (proj : S -> world) P (m : M S A) :
  (forall s, infers (proj (snd (m s))) = infers (proj s)) -> appends proj 0 P m.
Proof.
  intros Hm s. exists []. rewrite Hm, app_nil_r. repeat split; [reflexivity | constructor].
Qed.

Lemma appends_bind {S A B} (proj : S -> world) (n1 n2 : nat) P (m : M S A) (k : A -> M S B) :
  appends proj n1 P m -> (forall a, appends proj n2 P (k a)) ->
  appends proj (n1 + n2) P (bind m k).
Proof.
  intros Hm Hk s. unfold bind. destruct (Hm s) as (c1 & Heq1 & Hlen1 & HP1).
  destruct (m s) as [[a | e] s1]; cbn in *.
  - destruct (Hk a s1) as (c2 & Heq2 & Hlen2 & HP2).
    exists (c1 ++ c2)%list. rewrite Heq2, Heq1, <- app_assoc, length_app.
    repeat split; [lia | now apply Forall_app].
  - exists c1. repeat split; [exact Heq1 | lia | exact HP1].
Qed.

Lemma appends_try_except {S A} (proj : S -> world) (n1 n2 : nat) P (m : M S A)
  (handler : exn -> option (M S A)) :
  appends proj n1 P m -> (forall e h, handler e = Some h -> appends proj n2 P h) ->
  appends proj (n1 + n2) P (try_except m handler).
Proof.
  intros Hm Hh s. unfold try_except. destruct (Hm s) as (c1 & Heq1 & Hlen1 & HP1).
  destruct (m s) as [[a | e] s1]; cbn in *.
  - exists c1. repeat split; [exact Heq1 | lia | exact HP1].
  - destruct (handler e) as [h |] eqn:Hhe.
    + destruct (Hh e h Hhe s1) as (c2 & Heq2 & Hlen2 & HP2).
      exists (c1 ++ c2)%list. rewrite Heq2, Heq1, <- app_assoc, length_app.
      repeat split; [lia | now apply Forall_app].
    + exists c1. repeat split; [exact Heq1 | lia | exact HP1].
Qed.

Lemma appends_try_finally {S A} (proj : S -> world) (n1 n2 : nat) P (m : M S A)
  (final : M S unit) :
  appends proj n1 P m -> appends proj n2 P final ->
  appends proj (n1 + n2) P (try_finally m final).
Proof.
  intros Hm Hf s. unfold try_finally. destruct (Hm s) as (c1 & Heq1 & Hlen1 & HP1).
  destruct (m s) as [r s1]; cbn in *.
  destruct (Hf s1) as (c2 & Heq2 & Hlen2 & HP2).
  exists (c1 ++ c2)%list.
  destruct (final s1) as [[u | e] s2]; cbn in *;
    rewrite Heq2, Heq1, <- app_assoc, length_app;
    (repeat split; [lia | now apply Forall_app]).
Qed.

Lemma appends_lift {L A} (n : nat) P (m : M world A) :
  appends id n P m -> appends (snd : L * world -> world) n P (lift m).
Proof.
  intros Hm [l w]. unfold lift. cbn. destruct (Hm w) as (c & Heq & Hlen & HP).
  exists c. destruct (m w) as [r w']. cbn in *. repeat split; assumption.
Qed.

Lemma appends_with_local {L A} (n : nat) P (l0 : L) (m : M (L * world) A) :
  appends snd n P m -> appends id n P (with_local l0 m).
Proof.
  intros Hm w. unfold with_local. destruct (Hm (l0, w)) as (c & Heq & Hlen & HP).
  exists c. destruct (m (l0, w)) as [r [l w']]. cbn in *. repeat split; assumption.
Qed.

End CallLogRules.

(** Closes [appends proj 0 P m] for an [m] built from file-system
    operations alone. *)
Ltac silent :=
  apply appends_silent; intros;
  unfold Py.bind, Py.lift, Py.ret, Py.raise, Py.get_local, Py.set_local, Py.exists_, Py.unlink,
    Py.getsize, Py.set_fs, Py.NamedTemporaryFile, Py.soundfile_write, Py.write_audiofile,
    Py.try_except; cbn;
  repeat (match goal with
          | |- context [match ?x with _ => _ end] => destruct_innermost x; cbn
          end);
  reflexivity.


(** ** The inference call of [STTEngine.transcribe] *)

Section CallLog.

Import Py faster_whisper Observe.
Variable E : env.

Lemma transcribe_params_default (s : STTEngine.t) (language : option string) :
  default_profile (STTEngine.transcribe_params s language ∅).
Proof. repeat split; vm_compute; reflexivity. Qed.

Lemma extract_silent P (video_path : string) :
  appends id 0 P (STTEngine._extract_audio_from_video E video_path).
Proof. unfold STTEngine._extract_audio_from_video. silent. Qed.

Lemma call_appends_one (audio : string) (params : gmap string pyval) :
  appends id 1 (fun call => inv_audio call = audio /\ inv_params call = params)
    (call_transcribe E audio params).
Proof.
  intros w. exists [{| inv_audio := audio; inv_params := params |}]. cbn.
  split; [reflexivity |]. split; [lia |]. repeat constructor.
Qed.

(** Every inference call [transcribe] makes, and it makes at most one, passes
    exactly the merged parameter dictionary. *)
Lemma transcribe_appends (s : STTEngine.t) (input : STTEngine.audio_input)
  (language : option string) (kwargs : gmap string pyval) :
  appends id 1 (fun call => inv_params call = STTEngine.transcribe_params s language kwargs)
    (STTEngine.transcribe E s input language kwargs).
Proof.
  unfold STTEngine.transcribe.
  apply appends_with_local.
  apply (appends_weaken _ (0 + (0 + (1 + 0)) + 0)); [lia |].
  apply appends_try_finally.
  - apply appends_bind.
    + destruct input; silent.
    + intros audio_path. apply appends_bind.
      * destruct (STTEngine._is_video_file audio_path); [| silent].
        apply appends_lift, extract_silent.
      * intros audio. apply appends_bind.
        -- apply appends_lift. intros w.
           destruct (call_appends_one audio (STTEngine.transcribe_params s language kwargs) w)
             as (calls & Heq & Hlen & HP).
           exists calls. repeat split; [exact Heq | exact Hlen |].
           eapply Forall_impl; [exact HP |]. now intros call [_ ?].
        -- intros [segs info]. destruct (iterate segs) as [y1 segs1].
           destruct (iterate segs1) as [y2 segs2]. silent.
  - silent.
Qed.

(** X2 — with no caller overrides, [STTEngine.transcribe] invokes the
    inference capability at most once, and every call it makes carries the
    default profile: beam width 3, VAD filtering on with a minimum silence of
    500 ms, no conditioning on previous text. For a path that is not a video
    the call is made, on that path. *)
Theorem engine_invokes_default_profile (s : STTEngine.t) (input : STTEngine.audio_input)
  (language : option string) (w : world) :
  (exists calls,
     infers (snd (STTEngine.transcribe E s input language ∅ w)) = (infers w ++ calls)%list /\
     (List.length calls <= 1)%nat /\
     Forall (fun call => default_profile (inv_params call)) calls) /\
  (forall path, input = STTEngine.InPath path -> STTEngine._is_video_file path = false ->
     infers (snd (STTEngine.transcribe E s input language ∅ w)) =
     (infers w ++ [{| inv_audio := path;
                      inv_params := STTEngine.transcribe_params s language ∅ |}])%list).
Proof.
  split.
  - destruct (transcribe_appends s input language ∅ w) as (calls & Heq & Hlen & HP).
    exists calls. repeat split; [exact Heq | exact Hlen |].
    eapply Forall_impl; [exact HP |]. intros call ->. apply transcribe_params_default.
  - intros path -> Hvideo.
    unfold STTEngine.transcribe, with_local, try_finally, bind, lift, get_local, ret,
      call_transcribe.
    cbn -[STTEngine._is_video_file]. rewrite Hvideo. cbn.
    destruct (model_transcribe E path _) as [[segs info] | e]; cbn; [| reflexivity].
    destruct (iterate segs) as [y1 segs1]. destruct (iterate segs1) as [y2 segs2]. reflexivity.
Qed.

(** X4 — whenever [STTEngine.transcribe] returns, its text is the texts of
    the segments the inference call yielded, joined by one space in the order
    yielded, and the language is the one the call reported; the reported
    count is the number of items a second iteration of the same sequence
    yields. *)
Theorem transcribe_text_is_join (s : STTEngine.t) (input : STTEngine.audio_input)
  (language : option string) (kwargs : gmap string pyval) (w : world)
  (t : string) (d : STTEngine.details) :
  fst (STTEngine.transcribe E s input language kwargs w) = Returned (t, d) ->
  exists audio segs info,
    model_transcribe E audio (STTEngine.transcribe_params s language kwargs) = Returned (segs, info) /\
    t = PyStr.join " " (map faster_whisper.text (fst (iterate segs))) /\
    STTEngine.d_segments_count d = Z.of_nat (List.length (fst (iterate (snd (iterate segs))))) /\
    STTEngine.d_language d = faster_whisper.language info.
Proof.
  unfold STTEngine.transcribe, with_local, try_finally, bind, lift, get_local, set_local, ret,
    STTEngine._extract_audio_from_video, try_except, call_transcribe, NamedTemporaryFile,
    soundfile_write, write_audiofile, exists_, unlink, raise.
  intros Hrun. destruct input as [path | samples]; cbn -[STTEngine._is_video_file] in Hrun.
  all: repeat (match type of Hrun with
               | context [match ?x with _ => _ end] => destruct_innermost_eqn x
               end; cbn -[STTEngine._is_video_file] in Hrun).
  all: try discriminate.
  all: injection Hrun as <- <-.
  all: match goal with
       | H : model_transcribe E ?a _ = Returned (?sg, ?i) |- _ => exists a, sg, i
       end.
  all: repeat (cbn; match goal with
                    | H : iterate ?x = _ |- context [iterate ?x] => rewrite H
                    end).
  all: repeat split; assumption.
Qed.

End CallLog.

(** The recording on the working host: one call, on that path. *)
Lemma engine_invokes_default_profile_witness :
  Py.infers (snd (STTEngine.transcribe (Scenario.working (faster_whisper.Generator Scenario.hello_world))
                    Scenario.engine (STTEngine.InPath "/audio/speech.wav") None ∅ Scenario.disk)) =
  (Py.infers Scenario.disk ++
   [{| faster_whisper.inv_audio := "/audio/speech.wav";
       faster_whisper.inv_params := STTEngine.transcribe_params Scenario.engine None ∅ |}])%list.
Proof.
  apply (proj2 (engine_invokes_default_profile
                  (Scenario.working (faster_whisper.Generator Scenario.hello_world))
                  Scenario.engine (STTEngine.InPath "/audio/speech.wav") None Scenario.disk)
           "/audio/speech.wav"); reflexivity.
Defined.

(** The recording on the working host, whose capability yields ["Hello"] and
    ["world"] through a generator. *)
Lemma transcribe_text_is_join_witness :
  exists audio segs info,
    Py.model_transcribe (Scenario.working (faster_whisper.Generator Scenario.hello_world)) audio
      (STTEngine.transcribe_params Scenario.engine None ∅) = Py.Returned (segs, info) /\
    "Hello world" =
      PyStr.join " " (map faster_whisper.text (fst (faster_whisper.iterate segs))) /\
    STTEngine.d_segments_count Scenario.hello_details =
      Z.of_nat (List.length (fst (faster_whisper.iterate (snd (faster_whisper.iterate segs))))) /\
    STTEngine.d_language Scenario.hello_details = faster_whisper.language info.
Proof.
  apply (transcribe_text_is_join
           (Scenario.working (faster_whisper.Generator Scenario.hello_world))
           Scenario.engine (STTEngine.InPath "/audio/speech.wav") None ∅ Scenario.disk
           "Hello world" Scenario.hello_details).
  vm_compute. reflexivity.
Defined.

(** ** The model loader *)

Section Loader.

Import Py faster_whisper Scenario.

(** C3 — the two loaders on a host whose first constructor calls raise.
    With one failure, [SpeechToText.__init__] goes from [(cuda, float16)]
    straight to [(cpu, int8)], where the ladder of the claim tries
    [(cuda, int8_float16)] next. With two failures it raises, having tried
    nothing after [(cpu, int8)], and keeps no record of the failures;
    [STTEngine._load_model] on the same host loads at its third attempt,
    [(cuda, int8)], and holds exactly two failure records. *)
Theorem app_loader_has_no_ladder :
  (* SpeechToText, one failure *)
  (exists s, fst (app_init 1) = Returned s) /\
  attempts (snd (app_init 1)) = [("cuda", "float16"); ("cpu", "int8")] /\
  (* SpeechToText, two failures *)
  fst (app_init 2) = Raised RuntimeError /\
  attempts (snd (app_init 2)) = [("cuda", "float16"); ("cpu", "int8")] /\
  (* STTEngine, two failures *)
  fst (engine_load 2) = Returned tt /\
  attempts (snd (snd (engine_load 2))) =
    [("cuda", "float16"); ("cuda", "int8_float16"); ("cuda", "int8")] /\
  STTEngine.device (STTEngine.self (fst (snd (engine_load 2)))) = Some "cuda" /\
  STTEngine.compute_type (STTEngine.self (fst (snd (engine_load 2)))) = Some "int8" /\
  List.length (STTEngine.error_messages (fst (snd (engine_load 2)))) = 2%nat.
Proof.
  repeat split; try (eexists; vm_compute; reflexivity); vm_compute; reflexivity.
Qed.

End Loader.

(** ** The degradation ladder of [STTEngine._load_model] *)

Section Ladder.

Import Py faster_whisper.
Variable E : env.

Local Abbreviation tier_request s tier := (STTEngine.kwargs_of s (fst tier) (snd tier)).

(** The fallback loop: if its first [j] constructor calls raise and call [j]
    returns, the loop ends with the engine on tier [j], one more failure
    record per failed call, and exactly those [j + 1] calls logged. *)
Lemma try_fallbacks_reaches (configs : list (string * string)) :
  forall (f : STTEngine.frame) (w : world) (j : nat) (tier : string * string) (m : Model),
  nth_error configs j = Some tier ->
  (forall i t, (i < j)%nat -> nth_error configs i = Some t ->
     exists e, WhisperModel E (List.length (loads w) + i) (tier_request (STTEngine.self f) t) = Raised e /\
               is_Exception e = true) ->
  WhisperModel E (List.length (loads w) + j) (tier_request (STTEngine.self f) tier) = Returned m ->
  exists f' w',
    STTEngine.try_fallbacks E configs (f, w) = (Returned tt, (f', w')) /\
    STTEngine.self f' =
      STTEngine.set_compute_type (snd tier)
        (STTEngine.set_device (fst tier) (STTEngine.set_model m (STTEngine.self f))) /\
    STTEngine.success f' = true /\
    List.length (STTEngine.error_messages f') = (List.length (STTEngine.error_messages f) + j)%nat /\
    loads w' = (loads w ++ map (fun t => tier_request (STTEngine.self f) t) (firstn (S j) configs))%list /\
    fs w' = fs w /\ infers w' = infers w.
Proof.
  induction configs as [|[dev ct] rest IH]; intros f w j tier m Hnth Hfail Hok.
  - destruct j; discriminate.
  - destruct j as [|j].
    + injection Hnth as <-. rewrite Nat.add_0_r in Hok. simpl in Hok.
      do 2 eexists. split.
      * cbn [STTEngine.try_fallbacks]. unfold bind, try_except, STTEngine.get_self, get_local, lift,
          new_WhisperModel, ret. cbn. rewrite Hok. cbn. reflexivity.
      * cbn. repeat split. now rewrite Nat.add_0_r.
    + destruct (Hfail 0%nat (dev, ct)) as (e & He & Hexn); [lia | reflexivity |].
      rewrite Nat.add_0_r in He. simpl in He.
      set (f1 := {| STTEngine.self := STTEngine.self f; STTEngine.success := STTEngine.success f;
                    STTEngine.error_messages := (STTEngine.error_messages f ++
                      [{| STTEngine.fail_stage := STTEngine.Fallback; STTEngine.fail_device := dev;
                          STTEngine.fail_compute_type := ct; STTEngine.fail_error := e |}])%list |}).
      set (w1 := {| fs := fs w; loads := (loads w ++ [STTEngine.kwargs_of (STTEngine.self f) dev ct])%list;
                    infers := infers w |}).
      destruct (IH f1 w1 j tier m) as (f' & w' & Hrun & Hself & Hsucc & Hlen & Hloads & Hfs & Hinf).
      * exact Hnth.
      * intros i t Hi Ht. destruct (Hfail (S i) t) as (e' & He' & Hexn'); [lia | exact Ht |].
        exists e'. split; [| exact Hexn']. subst w1 f1. cbn. rewrite length_app. cbn.
        now replace (List.length (loads w) + 1 + i)%nat with (List.length (loads w) + S i)%nat by lia.
      * subst w1 f1. cbn. rewrite length_app. cbn.
        now replace (List.length (loads w) + 1 + j)%nat with (List.length (loads w) + S j)%nat by lia.
      * exists f', w'. split; [| repeat split].
        -- cbn [STTEngine.try_fallbacks]. unfold bind, try_except, STTEngine.get_self, get_local, lift,
             new_WhisperModel, ret. cbn. rewrite He. cbn. rewrite Hexn. cbn. exact Hrun.
        -- exact Hself.
        -- exact Hsucc.
        -- rewrite Hlen. subst f1. cbn. rewrite length_app. cbn. lia.
        -- rewrite Hloads. subst w1 f1. cbn. rewrite <- app_assoc. reflexivity.
        -- rewrite Hfs. reflexivity.
        -- rewrite Hinf. reflexivity.
Qed.

(** The probe reads the world and leaves it as it is. *)
Lemma select_device_pure (s : STTEngine.t) (w : world) :
  snd (STTEngine.select_device E s w) = w.
Proof.
  unfold STTEngine.select_device, STTEngine._is_cuda_available, bind, try_except, ret.
  destruct (STTEngine.device s); [reflexivity |].
  destruct (STTEngine.use_gpu s); [| reflexivity].
  destruct (cuda_is_available E) as [[] | e]; cbn;
    repeat match goal with
           | |- context [cuda_liveness E] => destruct (cuda_liveness E) as [[] | ?]; cbn
           | |- context [is_Exception ?x] => destruct (is_Exception x); cbn
           end; reflexivity.
Qed.

(** X1 — [STTEngine._load_model] walks a linear ladder and stops at the first
    success: the preferred candidate, then [(cuda, int8_float16)],
    [(cuda, int8)], [(cpu, int8)] if the preferred device is ["cuda"], else
    [(cpu, int8_float16)], [(cpu, int8)]. If the first [n] constructor calls
    raise and call [n] returns, the engine ends with the device and compute
    type of tier [n] and that model, exactly [n] failure records, and exactly
    the first [n + 1] tiers tried, in order. *)
Theorem engine_ladder_reaches_tier (s : STTEngine.t) (w : world) (d : string) (n : nat)
  (tier : string * string) (m : Model) :
  let ladder := (d, STTEngine.select_compute_type s d) :: STTEngine.fallback_configs d in
  fst (STTEngine.select_device E s w) = Returned d ->
  nth_error ladder n = Some tier ->
  (forall i t, (i < n)%nat -> nth_error ladder i = Some t ->
     exists e, WhisperModel E (List.length (loads w) + i) (tier_request s t) = Raised e /\
               is_Exception e = true) ->
  WhisperModel E (List.length (loads w) + n) (tier_request s tier) = Returned m ->
  exists f' w',
    STTEngine._load_model_body E
      ({| STTEngine.self := s; STTEngine.success := false; STTEngine.error_messages := [] |}, w)
    = (Returned tt, (f', w')) /\
    STTEngine.device (STTEngine.self f') = Some (fst tier) /\
    STTEngine.compute_type (STTEngine.self f') = Some (snd tier) /\
    STTEngine.model (STTEngine.self f') = Some m /\
    STTEngine.model_size (STTEngine.self f') = STTEngine.model_size s /\
    List.length (STTEngine.error_messages f') = n /\
    loads w' = (loads w ++ map (fun t => tier_request s t) (firstn (S n) ladder))%list.
Proof.
  intros ladder Hdev Hnth Hfail Hok.
  pose proof (select_device_pure s w) as Hpure.
  destruct (STTEngine.select_device E s w) as [r w0] eqn:Hsel. cbn in Hdev, Hpure. subst r w0.
  set (c := STTEngine.select_compute_type s d) in *.
  set (s2 := STTEngine.set_compute_type c (STTEngine.set_device d s)).
  destruct n as [|j].
  - (* the preferred candidate loads *)
    injection Hnth as <-. rewrite Nat.add_0_r in Hok. unfold STTEngine.kwargs_of in Hok. cbn in Hok.
    do 2 eexists. split.
    + unfold STTEngine._load_model_body, bind, try_except, STTEngine.get_self, STTEngine.put_self,
        STTEngine.set_success, get_local, set_local, lift, new_WhisperModel, ret,
        STTEngine.kwargs_of. cbn.
      rewrite Hsel. cbn.
      change (STTEngine.select_compute_type (STTEngine.set_device d s) d) with c.
      rewrite Hok. cbn. reflexivity.
    + cbn. repeat split.
  - (* the preferred candidate fails; the fallback loop reaches the tier *)
    destruct (Hfail 0%nat (d, c)) as (e & He & Hexn); [lia | reflexivity |].
    rewrite Nat.add_0_r in He. unfold STTEngine.kwargs_of in He. cbn in He.
    set (f1 := {| STTEngine.self := s2; STTEngine.success := false;
                  STTEngine.error_messages :=
                    [{| STTEngine.fail_stage := STTEngine.Primary; STTEngine.fail_device := d;
                        STTEngine.fail_compute_type := c; STTEngine.fail_error := e |}] |}).
    set (w1 := {| fs := fs w; loads := (loads w ++ [STTEngine.kwargs_of s d c])%list;
                  infers := infers w |}).
    destruct (try_fallbacks_reaches (STTEngine.fallback_configs d) f1 w1 j tier m)
      as (f' & w' & Hrun & Hself & Hsucc & Hlen & Hloads & Hfs & Hinf).
    + exact Hnth.
    + intros i t Hi Ht. destruct (Hfail (S i) t) as (e' & He' & Hexn'); [lia | exact Ht |].
      exists e'. split; [| exact Hexn']. subst w1 f1. cbn. rewrite length_app. cbn.
      now replace (List.length (loads w) + 1 + i)%nat with (List.length (loads w) + S i)%nat by lia.
    + subst w1 f1. cbn. rewrite length_app. cbn.
      now replace (List.length (loads w) + 1 + j)%nat with (List.length (loads w) + S j)%nat by lia.
    + exists f', w'. split; [| repeat split].
      * unfold STTEngine._load_model_body, bind, try_except, STTEngine.get_self, STTEngine.put_self,
          STTEngine.set_success, STTEngine.append_error, get_local, set_local, lift,
          new_WhisperModel, ret. cbn -[STTEngine.try_fallbacks STTEngine.fallback_configs].
        rewrite Hsel. cbn -[STTEngine.try_fallbacks STTEngine.fallback_configs].
        change (STTEngine.select_compute_type (STTEngine.set_device d s) d) with c.
        unfold STTEngine.kwargs_of. cbn -[STTEngine.try_fallbacks STTEngine.fallback_configs].
        rewrite He. cbn -[STTEngine.try_fallbacks STTEngine.fallback_configs].
        rewrite Hexn. cbn -[STTEngine.try_fallbacks STTEngine.fallback_configs].
        match goal with
        | |- context [STTEngine.try_fallbacks E (STTEngine.fallback_configs d) ?st] =>
            change st with (f1, w1)
        end.
        rewrite Hrun. do 3 (cbn; rewrite ?Hsucc). reflexivity.
      * rewrite Hself. reflexivity.
      * rewrite Hself. reflexivity.
      * rewrite Hself. reflexivity.
      * rewrite Hself. reflexivity.
      * rewrite Hlen. reflexivity.
      * rewrite Hloads. subst w1 f1. cbn. rewrite <- app_assoc. reflexivity.
Qed.

End Ladder.

(** The host whose first two constructor calls raise: the engine ends on the
    third tier, [(cuda, int8)], with two failure records. *)
Lemma engine_ladder_reaches_tier_witness :
  exists f' w',
    STTEngine._load_model_body (Scenario.loads_fail 2)
      ({| STTEngine.self := Scenario.fresh_engine; STTEngine.success := false;
          STTEngine.error_messages := [] |}, Scenario.disk)
    = (Py.Returned tt, (f', w')) /\
    STTEngine.device (STTEngine.self f') = Some "cuda" /\
    STTEngine.compute_type (STTEngine.self f') = Some "int8" /\
    STTEngine.model (STTEngine.self f') =
      Some {| faster_whisper.built_with :=
                STTEngine.kwargs_of Scenario.fresh_engine "cuda" "int8" |} /\
    STTEngine.model_size (STTEngine.self f') = "medium" /\
    List.length (STTEngine.error_messages f') = 2%nat /\
    Scenario.attempts w' = [("cuda", "float16"); ("cuda", "int8_float16"); ("cuda", "int8")].
Proof.
  destruct (engine_ladder_reaches_tier (Scenario.loads_fail 2) Scenario.fresh_engine
              Scenario.disk "cuda" 2 ("cuda", "int8")
              {| faster_whisper.built_with :=
                   STTEngine.kwargs_of Scenario.fresh_engine "cuda" "int8" |})
    as (f' & w' & Hrun & Hdev & Hct & Hmodel & Hsize & Hlen & Hloads).
  - reflexivity.
  - reflexivity.
  - intros i t Hi Ht. exists Py.RuntimeError.
    destruct i as [|[|i]]; [| | lia]; cbn in Ht; injection Ht as <-; split; reflexivity.
  - reflexivity.
  - exists f', w'. repeat split; try assumption.
    unfold Scenario.attempts. rewrite Hloads. reflexivity.
Defined.

(** ** The media normaliser: video conversion *)

Section Conversion.

Import Py faster_whisper Scenario.

(** C9 — [convert_video_to_audio] does let exceptions through. When the
    temporary file cannot be created (an [output_format] such as ["x/y"], or a
    temporary directory that is not writable), the [except Exception] clause
    reads the local [audio_path] before anything was assigned to it and the
    caller gets an [UnboundLocalError]; when the [ffmpeg] found on the path
    may not be executed, the probe's [PermissionError] is outside both the
    classes it catches and the [try] block. With the default format on the
    working host the call returns the path and [True]. *)
Theorem convert_propagates_exceptions :
  fst (convert_on (working (Generator [])) "x/y") = Raised UnboundLocalError /\
  fst (convert_on unwritable_tmp "wav") = Raised UnboundLocalError /\
  fst (convert_on ffmpeg_not_executable "wav") = Raised PermissionError /\
  fst (convert_on (working (Generator [])) "wav") = Returned ("/tmp/tmpab12cd.wav", true).
Proof. repeat split; vm_compute; reflexivity. Qed.

End Conversion.

Section ConversionReturns.

Import Py faster_whisper Observe.
Variable E : env.


End ConversionReturns.


(** ** The media normaliser: [normalize_audio] *)

Section Normalisation.

Import Py numpy Scenario Observe.


Lemma fold_maximum_zeros (l : list float) :
  Forall is_zero l -> fold_left maximum (np_abs l) 0%float = 0%float.
Proof.
  induction 1 as [|x l [-> | ->] _ IH]; [reflexivity | exact IH | exact IH].
Qed.

Lemma normalize_no_division_error (buf : list float) (sample_rate : Z) :
  sample_rate <> 0 -> normalize_float64 buf sample_rate <> Raised ZeroDivisionError.
Proof.
  intros Hrate. unfold normalize_float64, utils.normalize_audio, arange, interp, np_max, and_then.
  destruct (Z.eqb_spec sample_rate 0) as [-> | _]; [contradiction |].
  repeat (match goal with
          | |- context [match ?x with _ => _ end] => destruct_innermost x
          end; cbn [negb]);
    discriminate.
Qed.

Lemma zero_buffer_unchanged_at_16k (buf : list float) :
  buf <> [] -> Forall is_zero buf -> normalize_float64 buf 16000 = Returned buf.
Proof.
  intros Hne Hzero. destruct Hzero as [|x l Hx Hl]; [contradiction |].
  unfold normalize_float64, utils.normalize_audio. cbn [Z.eqb Pos.eqb negb and_then].
  assert (Hpeak : np_max (np_abs (x :: l)) = Returned 0%float).
  { cbn [np_abs map np_max]. f_equal.
    destruct Hx as [-> | ->]; apply (fold_maximum_zeros l Hl). }
  rewrite Hpeak. reflexivity.
Qed.




End Normalisation.

(** ** [normalize_audio] in exact arithmetic *)

Section ExactNormalisation.

Import Py numpy Scenario.
Local Open Scope Q_scope.

Lemma maximum_exact (x y : Q) :
  maximum x y = if Qle_bool y x then x else y.
Proof. unfold maximum. simpl. now rewrite orb_false_r. Qed.

Lemma fold_maximum_spec (l : list Q) (a : Q) :
  (fold_left maximum l a = a \/ In (fold_left maximum l a) l) /\
  a <= fold_left maximum l a /\
  (forall b, In b l -> b <= fold_left maximum l a).
Proof.
  revert a. induction l as [|x l IH]; intros a; simpl.
  - repeat split; [now left | apply Qle_refl | intros b []].
  - destruct (IH (maximum a x)) as (Hin & Hge & Hall).
    rewrite maximum_exact in *.
    destruct (Qle_bool x a) eqn:Hxa.
    + apply Qle_bool_iff in Hxa. repeat split.
      * destruct Hin; [now left | right; now right].
      * exact Hge.
      * intros b [<- | Hb]; [now apply Qle_trans with a | now apply Hall].
    + assert (Hax : a <= x).
      { destruct (Qlt_le_dec x a) as [Hlt | Hle]; [| exact Hle].
        apply Qlt_le_weak, Qle_bool_iff in Hlt. congruence. }
      repeat split.
      * destruct Hin as [-> | Hin]; right; [now left | now right].
      * now apply Qle_trans with x.
      * intros b [<- | Hb]; [exact Hge | now apply Hall].
Qed.

Lemma np_max_spec (l : list Q) (m : Q) :
  np_max l = Returned m -> In m l /\ (forall b, In b l -> b <= m).
Proof.
  destruct l as [|x l]; simpl; [discriminate |].
  intros [= <-]. destruct (fold_maximum_spec l x) as (Hin & Hge & Hall).
  split.
  - destruct Hin as [-> | Hin]; [now left | now right].
  - intros b [<- | Hb]; [exact Hge | now apply Hall].
Qed.

Lemma Qabs_div_pos (x m : Q) : 0 < m -> Qabs (x / m) == Qabs x / m.
Proof.
  intros Hm. unfold Qdiv. rewrite Qabs_Qmult, Qabs_Qinv.
  rewrite (Qabs_pos m) by now apply Qlt_le_weak. reflexivity.
Qed.

Lemma Qdiv_self (m : Q) : 0 < m -> m / m == 1.
Proof. intros Hm. apply Qmult_inv_r. intros H0. rewrite H0 in Hm. now apply Qlt_irrefl in Hm. Qed.

Lemma Qdiv_unit (x p : Q) : p == 1 -> x / p == x.
Proof. intros ->. unfold Qdiv. change (/ 1) with 1. apply Qmult_1_r. Qed.

Lemma ltb_exact (x y : Q) : ltb x y = true <-> x < y.
Proof.
  simpl. rewrite negb_true_iff. split.
  - intros H. destruct (Qlt_le_dec x y) as [Hlt | Hle]; [exact Hlt |].
    apply Qle_bool_iff in Hle. congruence.
  - intros Hlt. destruct (Qle_bool y x) eqn:Hle; [| reflexivity].
    apply Qle_bool_iff in Hle. exfalso. now apply (Qlt_not_le x y).
Qed.

Lemma divide_unit_peak (l : list Q) (p : Q) :
  p == 1 -> Forall2 Qeq (np_divide l p) l.
Proof.
  intros Hp. induction l as [|x l IH]; simpl; constructor; [now apply Qdiv_unit | exact IH].
Qed.

Lemma Forall2_Qeq_refl (l : list Q) : Forall2 Qeq l l.
Proof. induction l; constructor; [reflexivity | assumption]. Qed.

(** At 16 kHz the function is the peak normalisation alone. *)
Lemma normalize_exact_16k (buf : list Q) (peak : Q) :
  np_max (np_abs buf) = Returned peak ->
  normalize_exact buf 16000 =
  Returned (if ltb (of_int 0) peak then np_divide buf peak else buf).
Proof.
  intros Hpeak. unfold normalize_exact, utils.normalize_audio.
  cbn [Z.eqb Pos.eqb negb and_then]. rewrite Hpeak. cbn [and_then].
  destruct (ltb _ _); reflexivity.
Qed.

(** The peak of a buffer divided by its positive peak is 1. *)
Lemma peak_of_divided (r : list Q) (m p : Q) :
  np_max (np_abs r) = Returned m -> 0 < m ->
  np_max (np_abs (np_divide r m)) = Returned p -> p == 1.
Proof.
  intros Hm Hpos Hp.
  apply np_max_spec in Hm as [Hm_in Hm_ge], Hp as [Hp_in Hp_ge].
  unfold np_abs, np_divide in *. rewrite map_map in *.
  apply in_map_iff in Hm_in as (a0 & Ha0 & Ha0_in).
  apply in_map_iff in Hp_in as (a & Ha & Ha_in).
  cbv beta in *. change (@abs Q exact) with Qabs in *. change (@div Q exact) with Qdiv in *.
  apply Qle_antisym.
  - rewrite <- Ha, Qabs_div_pos by assumption.
    apply Qle_shift_div_r; [assumption |]. rewrite Qmult_1_l.
    apply Hm_ge, in_map_iff. now exists a.
  - assert (H1 : Qabs (a0 / m) == 1)
      by (rewrite Qabs_div_pos by assumption; rewrite Ha0; now apply Qdiv_self).
    rewrite <- H1. apply Hp_ge, in_map_iff. now exists a0.
Qed.



End ExactNormalisation.

(** ** [STTEngine.transcribe]: files and errors *)

(** Case analysis on every oracle result a run depends on. *)
Ltac run_cases :=
  repeat (match goal with
          | |- context [match ?x with _ => _ end] => destruct_innermost_eqn x
          end; cbn -[STTEngine._is_video_file SpeechToText.is_video_file PyStr.contains]).

Section EngineFiles.

Import Py faster_whisper.
Variable E : env.

(** Whatever happens after the temporary file of an array input was
    created, the [finally] block removes it. *)
Lemma transcribe_array_cleanup (s : STTEngine.t) (samples : list float)
  (language : option string) (kwargs : gmap string pyval) (w : world) (name : string) :
  mkstemp E ".wav" (fs w) = Returned name -> name <> "" ->
  fs (snd (STTEngine.transcribe E s (STTEngine.InArray samples) language kwargs w)) !! name = None.
Proof.
  unfold STTEngine.transcribe, STTEngine._extract_audio_from_video, with_local, try_finally,
    bind, lift, get_local, set_local, ret, try_except, call_transcribe, NamedTemporaryFile,
    soundfile_write, write_audiofile, exists_, unlink, raise.
  intros Htmp Hname. apply String.eqb_neq in Hname.
  cbn -[STTEngine._is_video_file]. rewrite Htmp. cbn -[STTEngine._is_video_file].
  run_cases.
  all: try discriminate.
  all: try (apply lookup_delete_eq).
  all: try assumption.
  all: match goal with
       | H : bool_decide _ = false |- _ =>
           apply bool_decide_eq_false in H; now apply eq_None_not_Some
       end.
Qed.




(** X9 — a video is transcribed from its sound track: when the
    extraction returns, the one inference call that [STTEngine.transcribe]
    and [SpeechToText.transcribe] make is made on the path the audio was
    extracted to, not on the video. *)
Theorem video_is_transcribed_from_its_track (s : STTEngine.t) (path : string)
  (language : option string) (kwargs : gmap string pyval) (w : world)
  (extracted : gmap string N) :
  (STTEngine._is_video_file path = true ->
   moviepy_extract E path (STTEngine.audio_file_of (gettempdir E) path) (fs w) =
     (Returned tt, extracted) ->
   infers (snd (STTEngine.transcribe E s (STTEngine.InPath path) language kwargs w)) =
   (infers w ++ [{| inv_audio := STTEngine.audio_file_of (gettempdir E) path;
                    inv_params := STTEngine.transcribe_params s language kwargs |}])%list) /\
  (SpeechToText.is_video_file path = true ->
   moviepy_extract E path (SpeechToText.audio_file_of (gettempdir E) path) (fs w) =
     (Returned tt, extracted) ->
   infers (snd (SpeechToText.transcribe E path language w)) =
   (infers w ++ [{| inv_audio := SpeechToText.audio_file_of (gettempdir E) path;
                    inv_params := SpeechToText.transcribe_params language |}])%list).
Proof.
  split; intros Hvideo Hextract.
  - unfold STTEngine.transcribe, STTEngine._extract_audio_from_video, with_local, try_finally,
      bind, lift, get_local, ret, try_except, write_audiofile, call_transcribe, raise.
    cbn -[STTEngine._is_video_file STTEngine.audio_file_of]. rewrite Hvideo.
    cbn -[STTEngine.audio_file_of]. rewrite Hextract. cbn -[STTEngine.audio_file_of].
    destruct (model_transcribe E _ _) as [[segs info] | e]; cbn; [| reflexivity].
    destruct (iterate segs) as [y1 segs1]. destruct (iterate segs1) as [y2 segs2]. reflexivity.
  - unfold SpeechToText.transcribe, SpeechToText.extract_audio_from_video, bind, try_except,
      write_audiofile, call_transcribe, unlink, ret, raise.
    rewrite Hvideo. cbn -[SpeechToText.audio_file_of PyStr.contains]. rewrite Hextract.
    cbn -[SpeechToText.audio_file_of PyStr.contains].
    destruct (model_transcribe E _ _) as [[segs info] | e];
      cbn -[SpeechToText.audio_file_of PyStr.contains]; [| reflexivity].
    destruct (iterate segs) as [y1 segs1]. destruct (iterate segs1) as [y2 segs2].
    run_cases; reflexivity.
Qed.

(** X10 — the keyword arguments a caller passes to [STTEngine.transcribe]
    override the defaults and reach the inference capability: every call
    made, and at most one is made, carries each argument of the caller as
    given, the default for each key the caller left out, and for the language
    the argument of the call or else the language of the engine. *)
Theorem caller_overrides_reach_inference (s : STTEngine.t) (input : STTEngine.audio_input)
  (language : option string) (kwargs : gmap string pyval) (w : world) :
  kwargs !! "language" = None ->
  exists calls,
    infers (snd (STTEngine.transcribe E s input language kwargs w)) = (infers w ++ calls)%list /\
    (List.length calls <= 1)%nat /\
    Forall (fun call =>
              (forall key v, kwargs !! key = Some v -> inv_params call !! key = Some v) /\
              (forall key, kwargs !! key = None ->
                 inv_params call !! key = STTEngine.transcribe_params s language ∅ !! key) /\
              inv_params call !! "language" =
                Some (STTEngine.val_of_language (STTEngine.or_str language (STTEngine.language s))))
           calls.
Proof.
  intros Hlang.
  destruct (transcribe_appends E s input language kwargs w) as (calls & Heq & Hlen & HP).
  exists calls. repeat split; [exact Heq | exact Hlen |].
  eapply Forall_impl; [exact HP |]. intros call ->. cbv beta.
  unfold STTEngine.transcribe_params. repeat split.
  - intros key v Hkey. now apply lookup_union_Some_l.
  - intros key Hkey. rewrite lookup_union_r by exact Hkey.
    now rewrite (left_id_L ∅ (∪)).
  - rewrite lookup_union_r by exact Hlang. reflexivity.
Qed.

End EngineFiles.




(** The video on the working host: inference runs on ["/tmp/clip_audio.wav"]. *)
Lemma video_is_transcribed_from_its_track_witness :
  map faster_whisper.inv_audio (Py.infers (snd Scenario.engine_on_video_ok)) =
  ["/tmp/clip_audio.wav"].
Proof.
  unfold Scenario.engine_on_video_ok.
  rewrite (proj1 (video_is_transcribed_from_its_track
                    (Scenario.working (faster_whisper.Generator Scenario.hello_world))
                    Scenario.engine "/videos/clip.mp4" None ∅ Scenario.disk
                    (<["/tmp/clip_audio.wav" := 32044%N]> (Py.fs Scenario.disk)))
             eq_refl eq_refl).
  reflexivity.
Defined.

(** A caller that widens the beam and switches the VAD filter off. *)
Lemma caller_overrides_reach_inference_witness :
  exists calls,
    Py.infers (snd (STTEngine.transcribe
                      (Scenario.working (faster_whisper.Generator Scenario.hello_world))
                      Scenario.engine (STTEngine.InPath "/audio/speech.wav") (Some "en")
                      (<["beam_size" := faster_whisper.PInt 5]>
                         (<["vad_filter" := faster_whisper.PBool false]> ∅))
                      Scenario.disk)) = (Py.infers Scenario.disk ++ calls)%list /\
    (List.length calls <= 1)%nat /\
    Forall (fun call =>
              faster_whisper.inv_params call !! "beam_size" = Some (faster_whisper.PInt 5) /\
              faster_whisper.inv_params call !! "vad_filter" = Some (faster_whisper.PBool false) /\
              faster_whisper.inv_params call !! "condition_on_previous_text" =
                Some (faster_whisper.PBool false) /\
              faster_whisper.inv_params call !! "language" = Some (faster_whisper.PStr "en"))
           calls.
Proof.
  assert (Hlang : <["beam_size" := faster_whisper.PInt 5]>
                    (<["vad_filter" := faster_whisper.PBool false]> (∅ : gmap string _))
                    !! "language" = None) by (vm_compute; reflexivity).
  destruct (caller_overrides_reach_inference
              (Scenario.working (faster_whisper.Generator Scenario.hello_world))
              Scenario.engine (STTEngine.InPath "/audio/speech.wav") (Some "en")
              (<["beam_size" := faster_whisper.PInt 5]>
                 (<["vad_filter" := faster_whisper.PBool false]> ∅))
              Scenario.disk Hlang) as (calls & Heq & Hlen & HP).
  exists calls. repeat split; [exact Heq | exact Hlen |].
  eapply Forall_impl; [exact HP |]. intros call (Hgiven & Hdefault & Hcall).
  repeat split.
  - apply Hgiven. vm_compute. reflexivity.
  - apply Hgiven. vm_compute. reflexivity.
  - rewrite Hdefault; vm_compute; reflexivity.
  - exact Hcall.
Defined.

(** ** [STTEngine._load_model]: every way through it *)

Section LoaderInvariant.

Import Py faster_whisper Observe.
Variable E : env.

Local Abbreviation tier_request s tier := (STTEngine.kwargs_of s (fst tier) (snd tier)).

Local Abbreviation tiny_request s :=
  {| req_model_size := "tiny"; req_device := "cpu"; req_compute_type := "int8";
     req_download_root := Some (STTEngine.download_root s); req_cpu_threads := None |}.

Lemma fallback_configs_length (d : string) :
  (List.length (STTEngine.fallback_configs d) <= 3)%nat.
Proof. unfold STTEngine.fallback_configs. destruct (String.eqb d "cuda"); cbn; lia. Qed.

(** The fallback loop when every constructor call raises: every
    configuration is tried, in order, and each leaves one failure record. *)
Lemma try_fallbacks_all_fail (configs : list (string * string)) :
  (forall attempt request, exists e,
     WhisperModel E attempt request = Raised e /\ is_Exception e = true) ->
  forall (f : STTEngine.frame) (w : world),
  exists f' w',
    STTEngine.try_fallbacks E configs (f, w) = (Returned tt, (f', w')) /\
    STTEngine.self f' = STTEngine.self f /\
    STTEngine.success f' = STTEngine.success f /\
    List.length (STTEngine.error_messages f') =
      (List.length (STTEngine.error_messages f) + List.length configs)%nat /\
    loads w' = (loads w ++ map (fun t => tier_request (STTEngine.self f) t) configs)%list /\
    fs w' = fs w /\ infers w' = infers w.
Proof.
  intros Hfail. induction configs as [|[dev ct] rest IH]; intros f w.
  - exists f, w. cbn. rewrite Nat.add_0_r, app_nil_r. repeat split.
  - destruct (Hfail (List.length (loads w)) (STTEngine.kwargs_of (STTEngine.self f) dev ct))
      as (e & He & Hexn).
    set (f1 := {| STTEngine.self := STTEngine.self f; STTEngine.success := STTEngine.success f;
                  STTEngine.error_messages := (STTEngine.error_messages f ++
                    [{| STTEngine.fail_stage := STTEngine.Fallback; STTEngine.fail_device := dev;
                        STTEngine.fail_compute_type := ct; STTEngine.fail_error := e |}])%list |}).
    set (w1 := {| fs := fs w; loads := (loads w ++ [STTEngine.kwargs_of (STTEngine.self f) dev ct])%list;
                  infers := infers w |}).
    destruct (IH f1 w1) as (f' & w' & Hrun & Hself & Hsucc & Hlen & Hloads & Hfs & Hinf).
    exists f', w'. split; [| repeat split].
    + cbn [STTEngine.try_fallbacks]. unfold bind, try_except, STTEngine.get_self, get_local, lift,
        new_WhisperModel, ret. cbn. rewrite He. cbn. rewrite Hexn. cbn. exact Hrun.
    + exact Hself.
    + exact Hsucc.
    + rewrite Hlen. subst f1. cbn. rewrite length_app. cbn. lia.
    + rewrite Hloads. subst w1 f1. cbn. rewrite <- app_assoc. reflexivity.
    + rewrite Hfs. reflexivity.
    + rewrite Hinf. reflexivity.
Qed.

(** X11 — when every constructor call raises an [Exception],
    [STTEngine._load_model] raises [RuntimeError] after it has tried, in this
    order and each once, the preferred candidate, every fallback
    configuration for the preferred device, and, unless the requested size is
    ["tiny"] already, the tiny model on the CPU with [int8]: at most five
    calls. It holds one failure record per call, and the engine keeps the
    device and compute type of the preferred candidate and has no model. *)
Theorem engine_gives_up_after_tiny (s : STTEngine.t) (w : world) (d : string) :
  let c := STTEngine.select_compute_type s d in
  let last_resort := if String.eqb (STTEngine.model_size s) "tiny" then [] else [tiny_request s] in
  let tried :=
    (map (fun t => tier_request s t) ((d, c) :: STTEngine.fallback_configs d) ++ last_resort)%list in
  fst (STTEngine.select_device E s w) = Returned d ->
  (forall attempt request, exists e,
     WhisperModel E attempt request = Raised e /\ is_Exception e = true) ->
  exists f' w',
    STTEngine._load_model_body E
      ({| STTEngine.self := s; STTEngine.success := false; STTEngine.error_messages := [] |}, w)
    = (Raised RuntimeError, (f', w')) /\
    fst (STTEngine._load_model E s w) = Raised RuntimeError /\
    loads w' = (loads w ++ tried)%list /\
    (List.length tried <= 5)%nat /\
    List.length (STTEngine.error_messages f') = List.length tried /\
    STTEngine.model (STTEngine.self f') = STTEngine.model s /\
    STTEngine.device (STTEngine.self f') = Some d /\
    STTEngine.compute_type (STTEngine.self f') = Some c.
Proof.
  intros c last_resort tried Hdev Hfail.
  pose proof (select_device_pure E s w) as Hpure.
  destruct (STTEngine.select_device E s w) as [r w0] eqn:Hsel. cbn in Hdev, Hpure. subst r w0.
  set (s2 := STTEngine.set_compute_type c (STTEngine.set_device d s)).
  destruct (Hfail (List.length (loads w)) (STTEngine.kwargs_of s d c)) as (e & He & Hexn).
  unfold STTEngine.kwargs_of in He. cbn in He.
  set (f1 := {| STTEngine.self := s2; STTEngine.success := false;
                STTEngine.error_messages :=
                  [{| STTEngine.fail_stage := STTEngine.Primary; STTEngine.fail_device := d;
                      STTEngine.fail_compute_type := c; STTEngine.fail_error := e |}] |}).
  set (w1 := {| fs := fs w; loads := (loads w ++ [STTEngine.kwargs_of s d c])%list;
                infers := infers w |}).
  destruct (try_fallbacks_all_fail (STTEngine.fallback_configs d) Hfail f1 w1)
    as (f2 & w2 & Hrun & Hself & Hsucc & Hlen & Hloads & Hfs & Hinf).
  assert (Hbody : exists f' w',
            STTEngine._load_model_body E
              ({| STTEngine.self := s; STTEngine.success := false;
                  STTEngine.error_messages := [] |}, w)
            = (Raised RuntimeError, (f', w')) /\
            loads w' = (loads w2 ++ last_resort)%list /\
            List.length (STTEngine.error_messages f') =
              (List.length (STTEngine.error_messages f2) + List.length last_resort)%nat /\
            STTEngine.self f' = STTEngine.self f2).
  { unfold STTEngine._load_model_body, STTEngine.get_self, STTEngine.put_self,
      STTEngine.set_success, STTEngine.append_error, bind, try_except, get_local, set_local, lift,
      new_WhisperModel, ret, raise. cbn -[STTEngine.try_fallbacks STTEngine.fallback_configs].
    rewrite Hsel. cbn -[STTEngine.try_fallbacks STTEngine.fallback_configs].
    change (STTEngine.select_compute_type (STTEngine.set_device d s) d) with c.
    unfold STTEngine.kwargs_of. cbn -[STTEngine.try_fallbacks STTEngine.fallback_configs].
    rewrite He. cbn -[STTEngine.try_fallbacks STTEngine.fallback_configs].
    rewrite Hexn. cbn -[STTEngine.try_fallbacks STTEngine.fallback_configs].
    match goal with
    | |- context [STTEngine.try_fallbacks E (STTEngine.fallback_configs d) ?st] =>
        change st with (f1, w1)
    end.
    rewrite Hrun. cbn. rewrite Hsucc, Hself. cbn.
    subst last_resort. destruct (String.eqb (STTEngine.model_size s) "tiny"); cbn.
    - rewrite Hsucc. cbn. exists f2, w2. rewrite app_nil_r, Nat.add_0_r.
      repeat split. exact Hself.
    - destruct (Hfail (List.length (loads w2)) (tiny_request (STTEngine.self f2)))
        as (e' & He' & Hexn').
      rewrite He'. cbn. rewrite Hexn'. cbn. rewrite Hsucc. cbn.
      do 2 eexists. split; [reflexivity |]. cbn. rewrite length_app, Hself. cbn.
      repeat split. }
  destruct Hbody as (f' & w' & Hbody & Hloads' & Hlen' & Hself').
  exists f', w'. split; [exact Hbody |].
  assert (Htried : (List.length tried <= 5)%nat).
  { subst tried last_resort. rewrite length_app, length_map. cbn [List.length].
    pose proof (fallback_configs_length d).
    destruct (String.eqb (STTEngine.model_size s) "tiny"); cbn [List.length]; lia. }
  repeat split.
  - unfold STTEngine._load_model, with_local, bind. rewrite Hbody. reflexivity.
  - rewrite Hloads', Hloads. subst w1 f1 tried. cbn. now rewrite <- !app_assoc.
  - exact Htried.
  - rewrite Hlen', Hlen. subst f1 tried. cbn. rewrite length_app, length_map. cbn. lia.
  - rewrite Hself', Hself. reflexivity.
  - rewrite Hself', Hself. reflexivity.
  - rewrite Hself', Hself. reflexivity.
Qed.

(** What the fallback loop leaves behind, whatever the constructor does. *)
Lemma try_fallbacks_invariant (configs : list (string * string)) :
  forall (f : STTEngine.frame) (w : world) r (f' : STTEngine.frame) (w' : world),
  STTEngine.try_fallbacks E configs (f, w) = (r, (f', w')) ->
  STTEngine.success f = false ->
  fs w' = fs w /\ infers w' = infers w /\
  (exists calls, loads w' = (loads w ++ calls)%list /\
                 (List.length calls <= List.length configs)%nat) /\
  same_settings (STTEngine.self f) (STTEngine.self f') /\
  STTEngine.model_size (STTEngine.self f') = STTEngine.model_size (STTEngine.self f) /\
  (STTEngine.success f' = true -> loaded_as E (STTEngine.self f') w') /\
  (STTEngine.success f' = false -> STTEngine.self f' = STTEngine.self f).
Proof.
  induction configs as [|[dev ct] rest IH]; intros f w r f' w' Hrun Hsucc.
  - cbn in Hrun. injection Hrun as <- <- <-.
    repeat split; try congruence. exists []. now rewrite app_nil_r.
  - cbn [STTEngine.try_fallbacks] in Hrun.
    unfold STTEngine.get_self, STTEngine.put_self, STTEngine.set_success,
      STTEngine.append_error, bind, try_except, get_local, set_local, lift, new_WhisperModel,
      ret in Hrun.
    cbn -[STTEngine.try_fallbacks] in Hrun.
    destruct (WhisperModel E (List.length (loads w)) (STTEngine.kwargs_of (STTEngine.self f) dev ct))
      as [m | e] eqn:Hcall; cbn -[STTEngine.try_fallbacks] in Hrun.
    + injection Hrun as <- <- <-. cbn. repeat split; try congruence.
      * exists [STTEngine.kwargs_of (STTEngine.self f) dev ct]. split; [reflexivity | cbn; lia].
      * intros _. exists (loads w), (STTEngine.kwargs_of (STTEngine.self f) dev ct), m.
        repeat split. exact Hcall.
    + destruct (is_Exception e); cbn -[STTEngine.try_fallbacks] in Hrun.
      * apply IH in Hrun; [| exact Hsucc].
        destruct Hrun as (Hfs & Hinf & (calls & Hloads & Hlen) & Hsame & Hsize & Hok & Hko).
        unfold same_settings in *. cbn in *. repeat split; try tauto.
        exists (STTEngine.kwargs_of (STTEngine.self f) dev ct :: calls). split.
        -- rewrite Hloads, <- app_assoc. reflexivity.
        -- cbn. lia.
      * injection Hrun as <- <- <-. cbn. repeat split; try congruence.
        exists [STTEngine.kwargs_of (STTEngine.self f) dev ct]. split; [reflexivity | cbn; lia].
Qed.

(** The whole of [_load_model], whatever the constructor does. *)
Lemma load_model_body_invariant (s : STTEngine.t) (w : world) (f' : STTEngine.frame)
  (w' : world) :
  STTEngine._load_model_body E
    ({| STTEngine.self := s; STTEngine.success := false; STTEngine.error_messages := [] |}, w)
  = (Returned tt, (f', w')) ->
  loaded_as E (STTEngine.self f') w' /\
  same_settings s (STTEngine.self f') /\
  (STTEngine.model_size (STTEngine.self f') = STTEngine.model_size s \/
   STTEngine.model_size (STTEngine.self f') = "tiny") /\
  fs w' = fs w /\ infers w' = infers w /\
  exists calls, loads w' = (loads w ++ calls)%list /\ (1 <= List.length calls <= 5)%nat.
Proof.
  intros Hrun.
  pose proof (select_device_pure E s w) as Hpure.
  unfold STTEngine._load_model_body, STTEngine.get_self, STTEngine.put_self,
    STTEngine.set_success, STTEngine.append_error, bind, try_except, get_local, set_local, lift,
    new_WhisperModel, ret, raise in Hrun.
  cbn -[STTEngine.try_fallbacks STTEngine.fallback_configs] in Hrun.
  destruct (STTEngine.select_device E s w) as [[d | e0] w0]; cbn in Hpure; subst w0;
    cbn -[STTEngine.try_fallbacks STTEngine.fallback_configs] in Hrun; [| discriminate].
  set (c := STTEngine.select_compute_type (STTEngine.set_device d s) d) in *.
  set (s2 := STTEngine.set_compute_type c (STTEngine.set_device d s)) in *.
  destruct (WhisperModel E (List.length (loads w)) (STTEngine.kwargs_of s2 d c)) as [m | e] eqn:Hcall;
    cbn -[STTEngine.try_fallbacks STTEngine.fallback_configs] in Hrun.
  - (* the preferred candidate loads *)
    injection Hrun as <- <-. cbn. repeat split.
    + exists (loads w), (STTEngine.kwargs_of s2 d c), m. repeat split. exact Hcall.
    + now left.
    + exists [STTEngine.kwargs_of s2 d c]. split; [reflexivity | cbn; lia].
  - destruct (is_Exception e); cbn -[STTEngine.try_fallbacks STTEngine.fallback_configs] in Hrun;
      [| discriminate].
    match type of Hrun with
    | context [STTEngine.try_fallbacks E (STTEngine.fallback_configs d) ?st] =>
        destruct (STTEngine.try_fallbacks E (STTEngine.fallback_configs d) st)
          as [r2 [f2 w2]] eqn:Hloop
    end.
    apply try_fallbacks_invariant in Hloop; [| reflexivity].
    destruct Hloop as (Hfs & Hinf & (calls & Hloads & Hlen) & Hsame & Hsize & Hok & Hko).
    pose proof (fallback_configs_length d) as Hthree.
    unfold same_settings in *. cbn in Hfs, Hinf, Hloads, Hsame, Hsize, Hko.
    destruct r2 as [[] | e2]; cbn in Hrun; [| discriminate].
    destruct (STTEngine.success f2) eqn:Hsucc; cbn in Hrun.
    + (* a fallback configuration loads *)
      rewrite Hsucc in Hrun. cbn in Hrun. injection Hrun as <- <-.
      repeat split; try tauto.
      exists (STTEngine.kwargs_of s2 d c :: calls). split.
      * rewrite Hloads, <- app_assoc. reflexivity.
      * cbn. lia.
    + rewrite (Hko eq_refl) in Hrun. cbn in Hrun.
      destruct (String.eqb (STTEngine.model_size s) "tiny"); cbn in Hrun.
      * rewrite Hsucc in Hrun. discriminate.
      * match type of Hrun with
        | context [WhisperModel E ?n ?request] =>
            destruct (WhisperModel E n request) as [m | e'] eqn:Htiny
        end; cbn in Hrun.
        -- (* the tiny model loads *)
           injection Hrun as <- <-. cbn. repeat split; try tauto.
           ++ eexists (loads w2), _, m. split; [reflexivity |]. repeat split. exact Htiny.
           ++ eexists ((STTEngine.kwargs_of s2 d c :: calls) ++ [_])%list. split.
              ** rewrite Hloads, <- !app_assoc. reflexivity.
              ** rewrite length_app. cbn. lia.
        -- destruct (is_Exception e'); cbn in Hrun; [rewrite Hsucc in Hrun |]; discriminate.
Qed.

(** X12 — whenever [STTEngine._load_model] returns, on any host, the engine
    reports what it loaded: it holds the model that the last constructor call
    returned, and its [model_size], [device] and [compute_type] are the ones
    that call was made with, whether the preferred candidate, a fallback
    configuration or the tiny model loaded. The size is the requested one or
    ["tiny"]; the other attributes are untouched; between one and five
    constructor calls were made, and no file and no inference call. *)
Theorem engine_reports_what_it_loaded (s s' : STTEngine.t) (w w' : world) :
  STTEngine._load_model E s w = (Returned s', w') ->
  loaded_as E s' w' /\
  same_settings s s' /\
  (STTEngine.model_size s' = STTEngine.model_size s \/ STTEngine.model_size s' = "tiny") /\
  fs w' = fs w /\ infers w' = infers w /\
  exists calls, loads w' = (loads w ++ calls)%list /\ (1 <= List.length calls <= 5)%nat.
Proof.
  unfold STTEngine._load_model, with_local, bind, STTEngine.get_self, get_local, ret.
  destruct (STTEngine._load_model_body E _) as [[[] | e] [f' w1]] eqn:Hbody; cbn; [| discriminate].
  intros [= <- <-]. now apply load_model_body_invariant.
Qed.

End LoaderInvariant.

(** The host on which no model can be built: five calls, then [RuntimeError]. *)
Lemma engine_gives_up_after_tiny_witness :
  exists f' w',
    STTEngine._load_model_body Scenario.no_model_loads
      ({| STTEngine.self := Scenario.fresh_engine; STTEngine.success := false;
          STTEngine.error_messages := [] |}, Scenario.disk)
    = (Py.Raised Py.RuntimeError, (f', w')) /\
    Scenario.attempts w' =
      [("cuda", "float16"); ("cuda", "int8_float16"); ("cuda", "int8"); ("cpu", "int8");
       ("cpu", "int8")] /\
    List.length (STTEngine.error_messages f') = 5%nat.
Proof.
  destruct (engine_gives_up_after_tiny Scenario.no_model_loads Scenario.fresh_engine
              Scenario.disk "cuda")
    as (f' & w' & Hrun & _ & Hloads & _ & Hlen & _).
  - reflexivity.
  - intros attempt request. exists Py.RuntimeError. split; reflexivity.
  - exists f', w'. repeat split; [exact Hrun | | exact Hlen].
    unfold Scenario.attempts. rewrite Hloads. reflexivity.
Defined.

(** The host whose first two constructor calls raise: the engine that comes
    back holds the model of the third call, made for [(cuda, int8)]. *)
Lemma engine_reports_what_it_loaded_witness :
  exists s' w',
    STTEngine._load_model (Scenario.loads_fail 2) Scenario.fresh_engine Scenario.disk =
    (Py.Returned s', w') /\
    Observe.loaded_as (Scenario.loads_fail 2) s' w' /\
    STTEngine.device s' = Some "cuda" /\ STTEngine.compute_type s' = Some "int8".
Proof.
  do 2 eexists. split; [vm_compute; reflexivity |]. split.
  - apply (engine_reports_what_it_loaded (Scenario.loads_fail 2) Scenario.fresh_engine _
             Scenario.disk _ ltac:(vm_compute; reflexivity)).
  - split; reflexivity.
Defined.

(** ** The GPU probes and the loader of [SpeechToText] *)

Section Probes.

Import Py faster_whisper.
Variable E : env.

(** X13 — the two GPU probes never raise an [Exception] and change
    nothing: [STTEngine._is_cuda_available] returns [True] exactly when
    [torch.cuda.is_available()] returned [True] and the test tensor made its
    round trip, and [False] when either raised an [Exception];
    [SpeechToText.is_cuda_available] also needs [import torch] to return. *)
Theorem cuda_probes_raise_no_exception (w : world) :
  (exists r, STTEngine._is_cuda_available E w = (r, w) /\
     (forall e, r = Raised e -> is_Exception e = false) /\
     (r = Returned true <->
      cuda_is_available E = Returned true /\ cuda_liveness E = Returned tt)) /\
  (exists r, SpeechToText.is_cuda_available E w = (r, w) /\
     (forall e, r = Raised e -> is_Exception e = false) /\
     (r = Returned true <->
      import_torch E = Returned tt /\
      cuda_is_available E = Returned true /\ cuda_liveness E = Returned tt)).
Proof.
  unfold STTEngine._is_cuda_available, SpeechToText.is_cuda_available, bind, try_except, ret.
  destruct (import_torch E) as [[] | e0]; destruct (cuda_is_available E) as [[] | e1];
    destruct (cuda_liveness E) as [[] | e2]; cbn.
  all: repeat match goal with
              | |- context [is_ImportError ?e] => destruct (is_ImportError e); cbn
              | |- context [is_Exception ?e] => destruct (is_Exception e) eqn:?; cbn
              end.
  all: split; eexists; (split; [reflexivity |]); (split; [intros; congruence |]).
  all: split; [intros; try discriminate; repeat split; reflexivity
              | intros Hall; decompose [and] Hall; try discriminate; reflexivity].
Qed.

(** The probe of [SpeechToText] changes nothing, and what it raises is no
    [Exception]. *)
Lemma app_probe_outcome (w : world) :
  exists r, SpeechToText.is_cuda_available E w = (r, w) /\
            (forall e, r = Raised e -> is_Exception e = false).
Proof.
  unfold SpeechToText.is_cuda_available, bind, try_except, ret.
  destruct (import_torch E) as [[] | e0]; destruct (cuda_is_available E) as [[] | e1];
    destruct (cuda_liveness E) as [[] | e2]; cbn.
  all: repeat match goal with
              | |- context [is_ImportError ?e] => destruct (is_ImportError e); cbn
              | |- context [is_Exception ?e] => destruct (is_Exception e) eqn:?; cbn
              end.
  all: eexists; (split; [reflexivity |]); intros; congruence.
Qed.

(** X14 — [SpeechToText.__init__] makes at most two constructor calls and
    touches nothing else: [(cuda, float16)] only if the probe returned [True]
    and [force_gpu] is set, then [(cpu, int8)] unless the first call
    returned. When it returns, its model is the one the last call returned;
    when it raises an [Exception], that is what the [(cpu, int8)] call
    raised, unwrapped, and nothing was tried after it. *)
Theorem app_loader_tries_at_most_two (model_size : string) (force_gpu : bool) (w : world) :
  let gpu := SpeechToText.request model_size "cuda" "float16" in
  let cpu := SpeechToText.request model_size "cpu" "int8" in
  let run := SpeechToText.__init__ E model_size force_gpu w in
  fs (snd run) = fs w /\ infers (snd run) = infers w /\
  (exists calls, loads (snd run) = (loads w ++ calls)%list /\
     (calls = [] \/ calls = [gpu] \/ calls = [gpu; cpu] \/ calls = [cpu])) /\
  (forall available, fst (SpeechToText.is_cuda_available E w) = Returned available ->
     if available && force_gpu
     then exists rest, loads (snd run) = (loads w ++ gpu :: rest)%list
     else loads (snd run) = (loads w ++ [cpu])%list) /\
  (forall s', fst run = Returned s' ->
     SpeechToText.model_size s' = model_size /\
     SpeechToText.sample_rate s' = 16000 /\ SpeechToText.channels s' = 1 /\
     exists earlier request m,
       loads (snd run) = (earlier ++ [request])%list /\
       WhisperModel E (List.length earlier) request = Returned m /\
       SpeechToText.model s' = Some m) /\
  (forall e, fst run = Raised e -> is_Exception e = true ->
     exists earlier,
       loads (snd run) = (earlier ++ [cpu])%list /\
       WhisperModel E (List.length earlier) cpu = Raised e).
Proof.
  intros gpu cpu run.
  destruct (app_probe_outcome w) as (r & Hprobe & Hexn).
  subst run. unfold SpeechToText.__init__, bind, try_except, new_WhisperModel, ret.
  fold gpu cpu. clearbody gpu cpu.
  rewrite Hprobe. cbn [fst].
  destruct r as [[] | e0]; cbn.
  - (* the probe found a GPU *)
    destruct force_gpu; cbn.
    + destruct (WhisperModel E (List.length (loads w)) gpu) as [m | e] eqn:Hgpu; cbn.
      * (* the GPU attempt returns *)
        refine (conj eq_refl (conj eq_refl (conj _ (conj _ (conj _ _))))).
        -- exists [gpu]. split; [reflexivity | tauto].
        -- intros available [= <-]. cbn. now exists [].
        -- intros s' [= <-]. cbn. repeat split. exists (loads w), gpu, m. now repeat split.
        -- discriminate.
      * destruct (is_Exception e) eqn:He; cbn.
        -- (* the GPU attempt raises: one attempt on the CPU *)
           rewrite length_app. cbn [List.length].
           destruct (WhisperModel E (List.length (loads w) + 1) cpu) as [m | e'] eqn:Hcpu; cbn;
             refine (conj eq_refl (conj eq_refl (conj _ (conj _ (conj _ _))))).
           ++ exists [gpu; cpu]. split; [now rewrite <- app_assoc | tauto].
           ++ intros available [= <-]. cbn. exists [cpu]. now rewrite <- app_assoc.
           ++ intros s' [= <-]. cbn. repeat split.
              exists (loads w ++ [gpu])%list, cpu, m. rewrite length_app. now repeat split.
           ++ discriminate.
           ++ exists [gpu; cpu]. split; [now rewrite <- app_assoc | tauto].
           ++ intros available [= <-]. cbn. exists [cpu]. now rewrite <- app_assoc.
           ++ discriminate.
           ++ intros e'' [= <-] _. exists (loads w ++ [gpu])%list.
              rewrite length_app. now split.
        -- refine (conj eq_refl (conj eq_refl (conj _ (conj _ (conj _ _))))).
           ++ exists [gpu]. split; [reflexivity | tauto].
           ++ intros available [= <-]. cbn. now exists [].
           ++ discriminate.
           ++ intros e' [= <-] He'. congruence.
    + destruct (WhisperModel E (List.length (loads w)) cpu) as [m | e] eqn:Hcpu; cbn;
        refine (conj eq_refl (conj eq_refl (conj _ (conj _ (conj _ _))))).
      * exists [cpu]. split; [reflexivity | tauto].
      * now intros available [= <-].
      * intros s' [= <-]. cbn. repeat split. exists (loads w), cpu, m. now repeat split.
      * discriminate.
      * exists [cpu]. split; [reflexivity | tauto].
      * now intros available [= <-].
      * discriminate.
      * intros e' [= <-] _. exists (loads w). now split.
  - (* the probe found none *)
    destruct (WhisperModel E (List.length (loads w)) cpu) as [m | e] eqn:Hcpu; cbn;
      refine (conj eq_refl (conj eq_refl (conj _ (conj _ (conj _ _))))).
    + exists [cpu]. split; [reflexivity | tauto].
    + now intros available [= <-].
    + intros s' [= <-]. cbn. repeat split. exists (loads w), cpu, m. now repeat split.
    + discriminate.
    + exists [cpu]. split; [reflexivity | tauto].
    + now intros available [= <-].
    + discriminate.
    + intros e' [= <-] _. exists (loads w). now split.
  - (* the probe itself raises, which no [Exception] does *)
    refine (conj eq_refl (conj eq_refl (conj _ (conj _ (conj _ _))))).
    + exists []. split; [now rewrite app_nil_r | tauto].
    + discriminate.
    + discriminate.
    + intros e [= <-] He. rewrite (Hexn e0 eq_refl) in He. discriminate.
Qed.

End Probes.

(** A host without PyTorch: both probes return [False]. *)
Lemma cuda_probes_raise_no_exception_witness :
  exists r, SpeechToText.is_cuda_available Scenario.no_torch Scenario.disk = (r, Scenario.disk) /\
            r <> Py.Returned true.
Proof.
  destruct (cuda_probes_raise_no_exception Scenario.no_torch Scenario.disk)
    as (_ & r & Hrun & _ & Htrue).
  exists r. split; [exact Hrun |]. intros Hr. apply Htrue in Hr as [Himport _]. discriminate.
Defined.

(** The host whose first constructor call raises: the converter holds the
    model of the second call. *)
Lemma app_loader_tries_at_most_two_witness :
  exists calls,
    Py.loads (snd (SpeechToText.__init__ (Scenario.loads_fail 1) "medium" true Scenario.disk)) =
    (Py.loads Scenario.disk ++ calls)%list /\
    (List.length calls <= 2)%nat.
Proof.
  destruct (app_loader_tries_at_most_two (Scenario.loads_fail 1) "medium" true Scenario.disk)
    as (_ & _ & (calls & Hloads & Hcalls) & _).
  exists calls. split; [exact Hloads |].
  destruct Hcalls as [-> | [-> | [-> | ->]]]; cbn; lia.
Defined.

(** ** [SpeechToText.transcribe]: the inference call and the clean-up *)

Section Substrings.

Lemma startswith_app (t u : string) : PyStr.startswith t (t ++ u) = true.
Proof.
  induction t as [|a t IH]; [reflexivity |].
  rewrite append_cons. cbn [PyStr.startswith]. now rewrite Ascii.eqb_refl, IH.
Qed.

Lemma contains_prefix (t u : string) : PyStr.contains t (t ++ u) = true.
Proof.
  destruct (t ++ u) eqn:Heq; cbn [PyStr.contains]; rewrite <- Heq, startswith_app; reflexivity.
Qed.

Lemma contains_app_r (t a s : string) :
  PyStr.contains t s = true -> PyStr.contains t (a ++ s) = true.
Proof.
  intros Hs. induction a as [|c a IH]; [exact Hs |].
  rewrite append_cons. cbn [PyStr.contains]. rewrite IH. apply orb_true_r.
Qed.

(** What [os.path.join(temp_dir, x + "_audio.wav")] returns for an [x]
    without separator holds both substrings the clean-up looks for. *)
Lemma extracted_path_is_recognised (temp_dir x : string) :
  PyStr.has_char "/" x = false ->
  PyStr.contains "_audio.wav" (posixpath.join temp_dir (x ++ "_audio.wav")) = true /\
  PyStr.contains temp_dir (posixpath.join temp_dir (x ++ "_audio.wav")) = true.
Proof.
  intros Hx. unfold posixpath.join.
  rewrite startswith_slash_app by (assumption || reflexivity).
  assert (Hsuffix : PyStr.contains "_audio.wav" (x ++ "_audio.wav") = true)
    by (apply contains_app_r; exact (contains_prefix "_audio.wav" "")).
  destruct (_ || _); split.
  - now apply contains_app_r.
  - apply contains_prefix.
  - now apply contains_app_r, (contains_app_r _ "/").
  - apply contains_prefix.
Qed.

End Substrings.

Section AppTranscribe.

Import Py faster_whisper.
Variable E : env.



(** X17 — every inference call [SpeechToText.transcribe] makes, and it
    makes at most one, passes two keywords and no other: [beam_size=5] and
    the [language] it was given. *)
Theorem app_passes_beam_and_language (audio_file : string) (language : option string)
  (w : world) :
  exists calls,
    infers (snd (SpeechToText.transcribe E audio_file language w)) = (infers w ++ calls)%list /\
    (List.length calls <= 1)%nat /\
    Forall (fun call =>
              forall key,
                inv_params call !! key =
                if String.eqb key "beam_size" then Some (PInt 5)
                else if String.eqb key "language"
                     then Some (match language with Some l => PStr l | None => PNone end)
                     else None)
           calls.
Proof.
  assert (Hparams : forall key,
            SpeechToText.transcribe_params language !! key =
            if String.eqb key "beam_size" then Some (PInt 5)
            else if String.eqb key "language"
                 then Some (match language with Some l => PStr l | None => PNone end)
                 else None).
  { intros key. unfold SpeechToText.transcribe_params.
    destruct (String.eqb_spec key "beam_size") as [-> | Hbeam]; [apply lookup_insert_eq |].
    rewrite lookup_insert_ne by congruence.
    destruct (String.eqb_spec key "language") as [-> | Hlang]; [apply lookup_insert_eq |].
    rewrite lookup_insert_ne by congruence. apply lookup_empty. }
  unfold SpeechToText.transcribe, SpeechToText.extract_audio_from_video, bind, try_except,
    write_audiofile, call_transcribe, unlink, ret, raise.
  cbn -[SpeechToText.is_video_file SpeechToText.audio_file_of PyStr.contains
        SpeechToText.transcribe_params].
  run_cases.
  all: first [ exists []; split; [now rewrite app_nil_r |]; split; [cbn; lia | constructor]
             | eexists [_]; split; [reflexivity |]; split; [cbn; lia |];
               constructor; [exact Hparams | constructor] ].
Qed.

End AppTranscribe.



(** ** [convert_video_to_audio]: what a result and what an exception mean *)

Section ConversionOutcome.

Import Py faster_whisper.
Variable E : env.

(** X18 — what [convert_video_to_audio] returns can be relied on: if the
    flag is [True], the path is the temporary file it created and that file
    exists with a size above zero when the call returns; if the flag is
    [False], the path is the empty string. No model is loaded or invoked. *)
Theorem convert_success_means_a_file (video_path output_format : string) (w w' : world)
  (path : string) (ok : bool) :
  utils.convert_video_to_audio E video_path output_format w = (Returned (path, ok), w') ->
  (if ok
   then mkstemp E ("." ++ output_format) (fs w) = Returned path /\
        exists size, fs w' !! path = Some size /\ (0 < size)%N
   else path = "") /\
  loads w' = loads w /\ infers w' = infers w.
Proof.
  unfold utils.convert_video_to_audio, utils.check_ffmpeg_available, utils.convert_cleanup,
    with_local, try_except, bind, lift, get_local, set_local, read_local, ret, raise,
    run_ffmpeg_version, run_ffmpeg_convert, NamedTemporaryFile, exists_, getsize, unlink.
  cbn. run_cases.
  all: intros Hrun; try discriminate Hrun.
  all: injection Hrun; intros; subst; cbn.
  all: repeat split; try reflexivity.
  all: try match goal with
           | H : (0 <? ?n)%N = true |- exists size, _ => exists n; split; [assumption | now apply N.ltb_lt]
           end.
Qed.


End ConversionOutcome.

(** The video on the working host: the file the call names is there. *)
Lemma convert_success_means_a_file_witness :
  exists size,
    Py.fs (snd (Scenario.convert_on (Scenario.working (faster_whisper.Generator [])) "wav"))
      !! "/tmp/tmpab12cd.wav" = Some size /\ (0 < size)%N.
Proof.
  apply (proj1 (convert_success_means_a_file (Scenario.working (faster_whisper.Generator []))
                  "/videos/clip.mp4" "wav" Scenario.disk _ "/tmp/tmpab12cd.wav" true
                  ltac:(vm_compute; reflexivity))).
Defined.


(** ** [cleanup_temp_files] *)

Section Cleanup.

Import Py.
Variable refused : string -> option exn.

(** One round of the loop. *)
Lemma cleanup_step (file_path : option string) (rest : list (option string)) (w : world) :
  (forall p e, refused p = Some e -> is_Exception e = true) ->
  exists w1,
    utils.cleanup_temp_files refused (file_path :: rest) w =
    utils.cleanup_temp_files refused rest w1 /\
    loads w1 = loads w /\ infers w1 = infers w /\
    (forall p, file_path = Some p -> p <> "" -> refused p = None -> fs w1 !! p = None) /\
    (forall p, file_path <> Some p \/ p = "" \/ refused p <> None -> fs w1 !! p = fs w !! p).
Proof.
  intros Hexn. cbn [utils.cleanup_temp_files]. unfold bind, ret, exists_, try_except, unlink_unless.
  destruct file_path as [q |]; [| exists w; repeat split; intros; congruence].
  destruct (String.eqb_spec q "") as [-> | Hq]; [exists w; repeat split; intros; congruence |].
  destruct (fs w !! q) as [size |] eqn:Hsize; cbn; rewrite ?Hsize.
  - destruct (refused q) as [e |] eqn:Hrefused.
    + rewrite (Hexn q e Hrefused). exists w. repeat split; intros; congruence.
    + exists (set_fs (delete q (fs w)) w). repeat split.
      * intros p [= <-] _ _. cbn. apply lookup_delete_eq.
      * intros p Hp. cbn. apply lookup_delete_ne. intros <-.
        destruct Hp as [Hp | [Hp | Hp]]; congruence.
  - exists w. repeat split; intros; congruence.
Qed.

(** X20 — [cleanup_temp_files] returns whatever its list holds, provided the
    deletions the host refuses are refused with an [Exception]: afterwards
    every listed, non-empty path whose deletion the host does not refuse is
    absent, every other path is as it was, and no model was loaded or
    invoked. *)
Theorem cleanup_removes_listed_files (file_list : list (option string)) (w : world) :
  (forall p e, refused p = Some e -> is_Exception e = true) ->
  exists w',
    utils.cleanup_temp_files refused file_list w = (Returned tt, w') /\
    loads w' = loads w /\ infers w' = infers w /\
    (forall p, In (Some p) file_list -> p <> "" -> refused p = None -> fs w' !! p = None) /\
    (forall p, ~ In (Some p) file_list \/ p = "" \/ refused p <> None ->
               fs w' !! p = fs w !! p).
Proof.
  intros Hexn. revert w. induction file_list as [|file_path rest IH]; intros w.
  - exists w. repeat split; intros; try reflexivity. contradiction.
  - destruct (cleanup_step file_path rest w Hexn) as (w1 & -> & Hl1 & Hi1 & Hgone1 & Hkept1).
    destruct (IH w1) as (w' & Hrun & Hl & Hi & Hgone & Hkept).
    exists w'. split; [exact Hrun |]. split; [congruence |]. split; [congruence |]. split.
    + intros p Hin Hp Hrefused.
      destruct (decide (Some p ∈ rest)) as [Hrest | Hrest].
      * apply Hgone; [now apply list_elem_of_In | exact Hp | exact Hrefused].
      * rewrite Hkept by (left; now rewrite <- list_elem_of_In).
        destruct Hin as [-> | Hin]; [now apply Hgone1 |].
        now apply list_elem_of_In in Hin.
    + intros p Hp. rewrite Hkept, Hkept1; [reflexivity | |].
      * destruct Hp as [Hp | Hp]; [left; intros ->; apply Hp; now left | now right].
      * destruct Hp as [Hp | Hp]; [left; intros Hin; apply Hp; now right | now right].
Qed.

End Cleanup.

(** A list with the recording, [None], the empty path and a path that is not
    there, on a host that refuses nothing: the recording is gone, the video
    is untouched. *)
Lemma cleanup_removes_listed_files_witness :
  exists w',
    utils.cleanup_temp_files (fun _ => None)
      [Some "/audio/speech.wav"; None; Some ""; Some "/tmp/gone.wav"] Scenario.disk =
    (Py.Returned tt, w') /\
    Py.fs w' !! "/audio/speech.wav" = None /\
    Py.fs w' !! "/videos/clip.mp4" = Some 1048576%N.
Proof.
  destruct (cleanup_removes_listed_files (fun _ => None)
              [Some "/audio/speech.wav"; None; Some ""; Some "/tmp/gone.wav"] Scenario.disk)
    as (w' & Hrun & _ & _ & Hgone & Hkept); [discriminate |].
  exists w'. split; [exact Hrun |]. split.
  - apply Hgone; [now left | discriminate | reflexivity].
  - rewrite Hkept; [reflexivity |]. left. cbn. intuition discriminate.
Defined.

(** ** [normalize_audio] in exact arithmetic: sample count and range *)

Section ExactResampling.

Import Py numpy Scenario.
Local Open Scope Q_scope.

Lemma Qabs_zero_le (x m : Q) : Qabs x <= m -> m <= 0 -> x == 0.
Proof.
  intros Hx Hm.
  assert (H0 : Qabs x <= 0) by now apply Qle_trans with m.
  apply Qle_antisym.
  - apply Qle_trans with (Qabs x); [apply Qle_Qabs | exact H0].
  - apply Qabs_Qle_condition in H0 as [H1 _]. exact H1.
Qed.

(** In exact arithmetic [np.arange(0, n * ratio, ratio)] has [n] points. *)
Lemma arange_exact_length (n : nat) (ratio : Q) :
  ~ ratio == 0 ->
  exists x, arange (of_int 0%Z) (mul (of_int (Z.of_nat n)) ratio) ratio = Returned x /\
            List.length x = n.
Proof.
  intros Hratio. unfold arange. cbn [ceil exact].
  assert (Hlen : Qceiling ((inject_Z (Z.of_nat n) * ratio - inject_Z 0) / ratio) = Z.of_nat n).
  { transitivity (Qceiling (inject_Z (Z.of_nat n))); [| apply Qceiling_Z].
    apply Qceiling_comp. change (inject_Z 0) with 0. field. exact Hratio. }
  cbn [of_int mul sub div exact]. rewrite Hlen. eexists. split; [reflexivity |].
  rewrite length_map, length_seq. lia.
Qed.

Lemma ratio_nonzero (sample_rate : Z) :
  sample_rate <> 0%Z -> ~ inject_Z 16000 / inject_Z sample_rate == 0.
Proof.
  intros Hrate Hzero.
  assert (Hsr : ~ inject_Z sample_rate == 0).
  { intros H0. apply Hrate. unfold Qeq in H0. cbn in H0. lia. }
  assert (H16 : inject_Z 16000 == 0).
  { rewrite <- (Qmult_div_r (inject_Z 16000) (inject_Z sample_rate)) by exact Hsr.
    rewrite Hzero. ring. }
  discriminate H16.
Qed.

(** The resampling step of [normalize_audio]: what it hands to the peak
    normalisation has as many samples as the input. *)
Lemma resample_exact_length (buf : list Q) (sample_rate : Z) :
  buf <> [] -> sample_rate <> 0%Z ->
  exists r,
    and_then
      (arange (of_int 0%Z)
         (mul (of_int (Z.of_nat (List.length buf))) (div (of_int 16000%Z) (of_int sample_rate)))
         (div (of_int 16000%Z) (of_int sample_rate)))
      (fun x => interp x (arange_int (List.length buf)) buf) = Returned r /\
    List.length r = List.length buf.
Proof.
  intros Hne Hrate.
  destruct (arange_exact_length (List.length buf) (div (of_int 16000%Z) (of_int sample_rate)))
    as (x & -> & Hx); [now apply ratio_nonzero |].
  cbn [and_then]. unfold interp, arange_int.
  destruct buf as [|a buf]; [contradiction |].
  cbn [List.length seq map]. rewrite length_map, length_seq, Nat.eqb_refl. cbn [negb].
  eexists. split; [reflexivity |]. now rewrite length_map.
Qed.

(** In exact arithmetic [normalize_audio] returns for every buffer that is
    not empty, at every sample rate other than 0, and what it returns has as
    many samples as the input. *)
Lemma normalize_exact_length (buf : list Q) (sample_rate : Z) :
  buf <> [] -> sample_rate <> 0%Z ->
  exists out, normalize_exact buf sample_rate = Returned out /\
              List.length out = List.length buf.
Proof.
  intros Hne Hrate. unfold normalize_exact, utils.normalize_audio.
  assert (Hstage : exists r,
            (if negb (sample_rate =? 16000)%Z then
               if (sample_rate =? 0)%Z then Raised ZeroDivisionError
               else
                 and_then
                   (arange (of_int 0%Z)
                      (mul (of_int (Z.of_nat (List.length buf)))
                         (div (of_int 16000%Z) (of_int sample_rate)))
                      (div (of_int 16000%Z) (of_int sample_rate)))
                   (fun x => interp x (arange_int (List.length buf)) buf)
             else Returned buf) = Returned r /\ List.length r = List.length buf).
  { destruct (sample_rate =? 16000)%Z; cbn [negb]; [now exists buf |].
    destruct (Z.eqb_spec sample_rate 0) as [-> | _]; [contradiction |].
    now apply resample_exact_length. }
  destruct Hstage as (r & Hstage & Hr). cbv zeta. rewrite Hstage.
  cbn [and_then].
  destruct r as [|a r]; [destruct buf; [contradiction | discriminate] |].
  cbn [np_abs map np_max and_then].
  destruct (ltb _ _); eexists; (split; [reflexivity |]).
  - unfold np_divide. now rewrite length_map.
  - exact Hr.
Qed.




End ExactResampling.


(** ** Recording, reading and constructing *)

Section Microphones.

Import Py faster_whisper.
Variable E : env.
Variable sd_rec : recorder.


(** X24 — [SpeechToText.transcribe_from_microphone] returns only after it
    has removed the temporary recording: whenever it returns, the microphone
    delivered, the file that [NamedTemporaryFile] created is gone, and
    exactly one inference call was made. *)
Theorem app_microphone_returns_after_cleanup (s : SpeechToText.t) (duration : Z)
  (w w' : world) (t : string) :
  SpeechToText.transcribe_from_microphone E sd_rec s duration w = (Returned t, w') ->
  exists samples name,
    sd_rec (SpeechToText.sample_rate s * duration) (SpeechToText.sample_rate s)
      (SpeechToText.channels s) = Returned samples /\
    mkstemp E ".wav" (fs w) = Returned name /\
    fs w' !! name = None /\
    List.length (infers w') = S (List.length (infers w)).
Proof.
  unfold SpeechToText.transcribe_from_microphone, SpeechToText.record_audio,
    SpeechToText.save_audio_to_file, SpeechToText.transcribe,
    SpeechToText.extract_audio_from_video, bind, try_except, NamedTemporaryFile,
    soundfile_write, write_audiofile, call_transcribe, unlink, ret, raise.
  cbn -[SpeechToText.is_video_file SpeechToText.audio_file_of PyStr.contains].
  run_cases.
  all: intros Hrun; try discriminate Hrun.
  all: injection Hrun as <- <-; cbn.
  all: do 2 eexists; split; [reflexivity |]; split; [reflexivity |].
  all: split; [apply lookup_delete_eq | rewrite length_app; cbn; lia].
Qed.

End Microphones.

Section ReadAudio.

Import Py numpy.
Local Open Scope Q_scope.
Variable sf_read : string -> gmap string N -> outcome (utils.sound (A := Q) * Z).


End ReadAudio.

Section Construction.

Import Py faster_whisper Observe.
Variable E : env.

(** X26 — every engine that [STTEngine(...)] returns is complete: it holds
    the model of the last constructor call and reports the size, device and
    compute type of that call; its thread count is never 0 (the caller's if
    that is not 0, else [os.cpu_count()] if that is known and not 0, else 4);
    its model directory is the caller's unless that is empty; and it records
    at 16 kHz on one channel. *)
Theorem constructed_engine_is_complete (model_size : string) (use_gpu : bool)
  (device compute_type download_root : option string) (cpu_threads : option Z)
  (language : option string) (w w' : world) (s' : STTEngine.t) :
  STTEngine.__init__ E model_size use_gpu device compute_type download_root cpu_threads language w
  = (Returned s', w') ->
  loaded_as E s' w' /\
  STTEngine.cpu_threads s' <> 0 /\
  (forall n, cpu_threads = Some n -> n <> 0 -> STTEngine.cpu_threads s' = n) /\
  (forall d, download_root = Some d -> d <> "" -> STTEngine.download_root s' = d) /\
  STTEngine.language s' = language /\
  STTEngine.sample_rate s' = 16000 /\ STTEngine.channels s' = 1.
Proof.
  unfold STTEngine.__init__, STTEngine._load_model, with_local, bind, STTEngine.get_self,
    get_local, ret.
  destruct (STTEngine._load_model_body E _) as [[[] | e] [f' w1]] eqn:Hbody; cbn; [| discriminate].
  intros [= <- <-].
  apply load_model_body_invariant in Hbody.
  destruct Hbody as (Hloaded & (_ & Hroot & Hthreads & Hlang & Hrate & Hchannels) & _).
  cbn in Hroot, Hthreads, Hlang, Hrate, Hchannels.
  split; [exact Hloaded |]. rewrite Hthreads, Hroot, Hlang, Hrate, Hchannels.
  repeat split.
  - destruct cpu_threads as [n |]; [destruct (Z.eqb_spec n 0) as [-> | Hn]; [| exact Hn] |];
      (destruct (cpu_count E) as [c |]; [destruct (Z.eqb_spec c 0) |]; (assumption || discriminate)).
  - intros n -> Hn. now destruct (Z.eqb_spec n 0).
  - intros d -> Hd. cbn. now destruct (String.eqb_spec d "").
Qed.

End Construction.


(** Two seconds from the same microphone through [SpeechToText]. *)
Lemma app_microphone_returns_after_cleanup_witness :
  exists samples name,
    Scenario.silent_microphone (16000 * 2) 16000 1 = Py.Returned samples /\
    Py.mkstemp (Scenario.working (faster_whisper.Generator Scenario.hello_world)) ".wav"
      (Py.fs Scenario.disk) = Py.Returned name /\
    Py.fs (snd (SpeechToText.transcribe_from_microphone
                  (Scenario.working (faster_whisper.Generator Scenario.hello_world))
                  Scenario.silent_microphone Scenario.converter 2 Scenario.disk)) !! name = None /\
    List.length (Py.infers (snd (SpeechToText.transcribe_from_microphone
                  (Scenario.working (faster_whisper.Generator Scenario.hello_world))
                  Scenario.silent_microphone Scenario.converter 2 Scenario.disk))) =
    S (List.length (Py.infers Scenario.disk)).
Proof.
  apply (app_microphone_returns_after_cleanup
           (Scenario.working (faster_whisper.Generator Scenario.hello_world))
           Scenario.silent_microphone Scenario.converter 2 Scenario.disk _ "Hello world").
  vm_compute. reflexivity.
Defined.


(** The engine built on the host whose first two constructor calls raise. *)
Lemma constructed_engine_is_complete_witness :
  exists s' w',
    STTEngine.__init__ (Scenario.loads_fail 2) "medium" true None None None None None
      Scenario.disk = (Py.Returned s', w') /\
    STTEngine.cpu_threads s' <> 0.
Proof.
  do 2 eexists. split; [vm_compute; reflexivity |].
  apply (constructed_engine_is_complete (Scenario.loads_fail 2) "medium" true None None None
           None None Scenario.disk _ _ ltac:(vm_compute; reflexivity)).
Defined.

(** ** The three tests for a video file *)

Section PathlibLower.

Lemma lower_of_list (l : list ascii) :
  PyStr.lower (string_of_list_ascii l) = string_of_list_ascii (map PyStr.lower_char l).
Proof. induction l as [|a l IH]; cbn; [reflexivity | now rewrite IH]. Qed.

Lemma length_lower (s : string) : String.length (PyStr.lower s) = String.length s.
Proof. induction s as [|a s IH]; cbn; [reflexivity | now rewrite IH]. Qed.

Lemma split_from_lower (s : string) (cur : list ascii) :
  PyStr.split_from "/" (PyStr.lower s) (map PyStr.lower_char cur) =
  map PyStr.lower (PyStr.split_from "/" s cur).
Proof.
  revert cur. induction s as [|a s IH]; intros cur; cbn [PyStr.lower PyStr.split_from map].
  - now rewrite lower_of_list, map_rev.
  - rewrite lower_char_eqb_slash. destruct (Ascii.eqb a "/"); cbn [map].
    + rewrite lower_of_list, map_rev. f_equal. exact (IH []).
    + exact (IH (a :: cur)).
Qed.

Lemma lower_eqb_empty (x : string) : String.eqb (PyStr.lower x) "" = String.eqb x "".
Proof. destruct x; reflexivity. Qed.

Lemma lower_eqb_dot (x : string) : String.eqb (PyStr.lower x) "." = String.eqb x ".".
Proof.
  destruct x as [|a [|b r]]; cbn; try reflexivity.
  - now rewrite lower_char_eqb_dot.
  - now rewrite lower_char_eqb_dot.
Qed.

Lemma filter_map_same {A} (f : A -> bool) (g : A -> A) (l : list A) :
  (forall x, f (g x) = f x) -> List.filter f (map g l) = map g (List.filter f l).
Proof.
  intros Hf. induction l as [|x l IH]; cbn; [reflexivity |].
  rewrite Hf. destruct (f x); cbn; now rewrite IH.
Qed.

Lemma last_map_same {A} (g : A -> A) (l : list A) (d : A) :
  List.last (map g l) (g d) = g (List.last l d).
Proof.
  induction l as [|x l IH]; [reflexivity |].
  destruct l; [reflexivity | exact IH].
Qed.

(** [Path(p).name] and [Path(p).suffix] commute with lower-casing. *)
Lemma name_lower (p : string) : pathlib.name (PyStr.lower p) = PyStr.lower (pathlib.name p).
Proof.
  unfold pathlib.name, PyStr.split.
  change (PyStr.split_from "/" (PyStr.lower p) [])
    with (PyStr.split_from "/" (PyStr.lower p) (map PyStr.lower_char [])).
  rewrite split_from_lower, filter_map_same.
  - exact (last_map_same PyStr.lower _ "").
  - intros x. now rewrite lower_eqb_empty, lower_eqb_dot.
Qed.

Lemma suffix_lower (p : string) : pathlib.suffix (PyStr.lower p) = PyStr.lower (pathlib.suffix p).
Proof.
  unfold pathlib.suffix. rewrite name_lower.
  unfold PyStr.rfind, PyStr.len, PyStr.slice_from.
  rewrite rfind_from_lower by apply lower_char_eqb_dot.
  rewrite length_lower, drop_lower.
  destruct (_ && _); reflexivity.
Qed.

Lemma engine_is_video_file_lower (p : string) :
  STTEngine._is_video_file p =
  PyStr.in_list (pathlib.suffix (PyStr.lower p)) STTEngine.SUPPORTED_VIDEO_FORMATS.
Proof. unfold STTEngine._is_video_file. now rewrite suffix_lower. Qed.

(** X27 — [STTEngine._is_video_file] ignores the letter case of the
    extension: on [root ++ ext'] it answers as on [root ++ ext] whenever
    [ext'] and [ext] lower-case to the same string. *)
Theorem engine_test_ignores_extension_case (root ext ext' : string) :
  PyStr.lower ext' = PyStr.lower ext ->
  STTEngine._is_video_file (root ++ ext') = STTEngine._is_video_file (root ++ ext).
Proof.
  intros Hcase. rewrite !engine_is_video_file_lower, !lower_app. congruence.
Qed.

End PathlibLower.

Section Agreement.

Lemma of_list_app (l m : list ascii) :
  string_of_list_ascii (l ++ m) = string_of_list_ascii l ++ string_of_list_ascii m.
Proof. induction l as [|a l IH]; cbn; [reflexivity | now rewrite IH]. Qed.

Lemma split_from_whole (c : ascii) (s : string) (cur : list ascii) :
  PyStr.has_char c s = false ->
  PyStr.split_from c s cur = [string_of_list_ascii (rev cur) ++ s].
Proof.
  revert cur. induction s as [|a s IH]; intros cur Hs; cbn [PyStr.split_from].
  - now rewrite append_nil_r.
  - cbn [PyStr.has_char] in Hs. apply orb_false_iff in Hs as [Ha Hs]. rewrite Ha.
    rewrite IH by exact Hs. cbn [rev]. f_equal.
    rewrite of_list_app, append_assoc. reflexivity.
Qed.

(** The last component [s.split("/")] returns for a directory prefix followed
    by a name. *)
Lemma split_from_last (base : string) :
  PyStr.has_char "/" base = false ->
  forall (dir : string) (cur : list ascii),
    (dir = "" /\ cur = []) \/ PyStr.endswith_char "/" dir = true ->
    exists l, PyStr.split_from "/" (dir ++ base) cur = (l ++ [base])%list.
Proof.
  intros Hbase. induction dir as [|a r IH]; intros cur Hdir.
  - destruct Hdir as [[_ ->] | H]; [| discriminate].
    exists []. rewrite append_nil_l, split_from_whole by exact Hbase. reflexivity.
  - destruct Hdir as [[H _] | Hdir]; [discriminate |].
    rewrite append_cons. cbn [PyStr.split_from].
    assert (Hrest : Ascii.eqb a "/" = true \/ PyStr.endswith_char "/" r = true).
    { destruct r; cbn in Hdir; [now left | now right]. }
    destruct (Ascii.eqb a "/") eqn:Ha.
    + destruct (IH []) as (l & ->).
      * destruct r; [now left | right; exact Hdir].
      * now exists (string_of_list_ascii (rev cur) :: l).
    + destruct Hrest as [H | Hrest]; [discriminate |].
      destruct (IH (a :: cur)) as (l & ->); [now right | now exists l].
Qed.

Lemma name_of_file (dir base : string) :
  dir = "" \/ PyStr.endswith_char "/" dir = true ->
  PyStr.has_char "/" base = false -> base <> "" -> base <> "." ->
  pathlib.name (dir ++ base) = base.
Proof.
  intros Hdir Hbase Hne Hdot. unfold pathlib.name, PyStr.split.
  destruct (split_from_last base Hbase dir []) as (l & ->); [tauto |].
  rewrite Lists.List.filter_app. cbn [List.filter].
  apply String.eqb_neq in Hne, Hdot. rewrite Hne, Hdot. cbn [negb andb].
  apply last_last.
Qed.

Lemma rfind_from_endswith (c : ascii) (s : string) (i acc : Z) :
  PyStr.endswith_char c s = true -> PyStr.rfind_from c s i acc = i + PyStr.len s - 1.
Proof.
  unfold PyStr.len. revert i acc. induction s as [|a s IH]; intros i acc Hs; [discriminate |].
  cbn [PyStr.rfind_from]. destruct s as [|b s].
  - cbn in Hs. rewrite Hs. cbn. lia.
  - rewrite IH by exact Hs. cbn [String.length]. lia.
Qed.

Lemma rfind_from_found (c : ascii) (s : string) (i acc : Z) :
  PyStr.has_char c s = true -> i <= PyStr.rfind_from c s i acc < i + PyStr.len s.
Proof.
  unfold PyStr.len. revert i acc. induction s as [|a s IH]; intros i acc Hs; [discriminate |].
  cbn [PyStr.rfind_from PyStr.has_char String.length] in *.
  destruct (Ascii.eqb a c).
  - destruct (rfind_from_range c s (i + 1) i) as [-> | H]; unfold PyStr.len in *; lia.
  - specialize (IH (i + 1) acc Hs). lia.
Qed.

Lemma rfind_from_shift (c : ascii) (s : string) (i acc j acc' : Z) :
  PyStr.has_char c s = true ->
  PyStr.rfind_from c s i acc - i = PyStr.rfind_from c s j acc' - j.
Proof.
  revert i acc j acc'. induction s as [|a s IH]; intros i acc j acc' Hs; [discriminate |].
  cbn [PyStr.rfind_from PyStr.has_char] in *.
  destruct (Ascii.eqb a c).
  - destruct (PyStr.has_char c s) eqn:Hrest.
    + specialize (IH (i + 1) i (j + 1) j eq_refl). lia.
    + rewrite !rfind_from_absent by exact Hrest. lia.
  - specialize (IH (i + 1) acc (j + 1) acc' Hs). lia.
Qed.

Lemma drop_app_plus (dir base : string) (k : nat) :
  PyStr.drop (String.length dir + k) (dir ++ base) = PyStr.drop k base.
Proof. induction dir as [|a r IH]; [reflexivity |]. rewrite append_cons. exact IH. Qed.

Lemma take_has_non_dot (i : nat) (base : string) :
  (1 <= i)%nat -> PyStr.startswith "." base = false -> base <> "" ->
  posixpath.has_non_dot (PyStr.take i base) = true.
Proof.
  intros Hi Hstart Hne. destruct base as [|a r]; [contradiction |].
  destruct i as [|i]; [lia |].
  cbn [PyStr.startswith PyStr.take posixpath.has_non_dot] in *.
  rewrite andb_true_r in Hstart. rewrite Ascii.eqb_sym, Hstart. reflexivity.
Qed.

Lemma short_is_no_video (x : string) (formats : list string) :
  Forall (fun f => (2 <= String.length f)%nat) formats ->
  (String.length x <= 1)%nat -> PyStr.in_list (PyStr.lower x) formats = false.
Proof.
  intros Hformats Hx. apply in_list_not_In. intros Hin.
  apply (proj1 (Lists.List.Forall_forall _ _) Hformats) in Hin.
  rewrite length_lower in Hin. lia.
Qed.

Lemma formats_are_long :
  Forall (fun f => (2 <= String.length f)%nat) utils.SUPPORTED_VIDEO_FORMATS.
Proof. repeat constructor; cbn; lia. Qed.

Lemma same_formats (x : string) :
  PyStr.in_list x STTEngine.SUPPORTED_VIDEO_FORMATS = PyStr.in_list x utils.SUPPORTED_VIDEO_FORMATS.
Proof.
  unfold PyStr.in_list, STTEngine.SUPPORTED_VIDEO_FORMATS, utils.SUPPORTED_VIDEO_FORMATS.
  cbn [existsb].
  repeat match goal with
         | |- context [String.eqb x ?f] => destruct (String.eqb x f)
         end; reflexivity.
Qed.

(** X28 — the three tests for a video file agree where they should.
    [SpeechToText.is_video_file] answers as [utils.is_video_file] on every
    path, except that it rejects the extension [.webm]. And
    [STTEngine._is_video_file], which goes through [pathlib], answers as
    [utils.is_video_file], which goes through [os.path.splitext], on every
    path made of a directory prefix (empty, or ending in a slash) and a file
    name that is not empty, holds no slash and does not begin with a dot. *)
Theorem video_tests_agree :
  (forall p,
     SpeechToText.is_video_file p =
     utils.is_video_file p &&
     negb (String.eqb (PyStr.lower (snd (posixpath.splitext p))) ".webm")) /\
  (forall dir base,
     dir = "" \/ PyStr.endswith_char "/" dir = true ->
     PyStr.has_char "/" base = false -> base <> "" -> PyStr.startswith "." base = false ->
     STTEngine._is_video_file (dir ++ base) = utils.is_video_file (dir ++ base)).
Proof.
  split.
  - intros p. unfold SpeechToText.is_video_file, utils.is_video_file.
    destruct (posixpath.splitext p) as [r e]. cbn [snd].
    unfold PyStr.in_list, utils.SUPPORTED_VIDEO_FORMATS. cbn [existsb].
    destruct (String.eqb_spec (PyStr.lower e) ".webm") as [-> | _]; [reflexivity |].
    repeat match goal with
           | |- context [String.eqb (PyStr.lower e) ?f] => destruct (String.eqb (PyStr.lower e) f)
           end; reflexivity.
  - intros dir base Hdir Hbase Hne Hstart.
    assert (Hnotdot : base <> ".") by (intros ->; discriminate).
    unfold STTEngine._is_video_file, pathlib.suffix, utils.is_video_file, posixpath.splitext.
    rewrite name_of_file by assumption. rewrite same_formats.
    unfold PyStr.rfind, PyStr.slice, PyStr.slice_to, PyStr.slice_from.
    rewrite !rfind_from_app. rewrite (rfind_from_absent "/" base) by exact Hbase.
    assert (Hsep : PyStr.rfind_from "/" dir 0 (-1) = PyStr.len dir - 1).
    { destruct Hdir as [-> | Hdir]; [reflexivity |]. rewrite rfind_from_endswith by exact Hdir. lia. }
    rewrite Hsep. clear Hsep.
    destruct (PyStr.has_char "." base) eqn:Hdot.
    + (* the name holds a dot *)
      pose proof (rfind_from_found "." base 0 (-1) Hdot) as Hrange.
      pose proof (rfind_from_shift "." base (0 + PyStr.len dir)
                    (PyStr.rfind_from "." dir 0 (-1)) 0 (-1) Hdot) as Hshift.
      set (i := PyStr.rfind_from "." base 0 (-1)) in *.
      assert (Hi : i <> 0).
      { subst i. destruct base as [|a r]; [contradiction |].
        cbn [PyStr.startswith] in Hstart. rewrite andb_true_r in Hstart.
        cbn [PyStr.rfind_from]. rewrite Ascii.eqb_sym, Hstart.
        destruct (rfind_from_range "." r (0 + 1) (-1)) as [-> | H]; lia. }
      replace (PyStr.rfind_from "." base (0 + PyStr.len dir) (PyStr.rfind_from "." dir 0 (-1)))
        with (PyStr.len dir + i) by lia.
      unfold PyStr.len in *.
      replace (Z.of_nat (String.length dir) + i >? Z.of_nat (String.length dir) - 1)
        with true by (symmetry; apply Z.gtb_lt; lia).
      replace (Z.to_nat (Z.of_nat (String.length dir) + i))
        with (String.length dir + Z.to_nat i)%nat by lia.
      replace (Z.to_nat (Z.of_nat (String.length dir) - 1 + 1)) with (String.length dir) by lia.
      replace (Z.to_nat (Z.of_nat (String.length dir) + i -
                         Z.max (Z.of_nat (String.length dir) - 1 + 1) 0))
        with (Z.to_nat i) by lia.
      rewrite drop_app_length.
      rewrite take_has_non_dot by (assumption || lia).
      rewrite drop_app_plus.
      destruct ((0 <? i) && (i <? Z.of_nat (String.length base) - 1)) eqn:Hcond; [reflexivity |].
      symmetry. apply short_is_no_video; [exact formats_are_long |].
      rewrite length_drop.
      apply andb_false_iff in Hcond as [Hcond | Hcond];
        [apply Z.ltb_ge in Hcond | apply Z.ltb_ge in Hcond]; lia.
    + (* the name holds no dot *)
      rewrite !(rfind_from_absent "." base) by exact Hdot.
      replace (PyStr.rfind_from "." dir 0 (-1) >? PyStr.len dir - 1) with false; [reflexivity |].
      symmetry. rewrite Z.gtb_ltb. apply Z.ltb_ge.
      destruct (rfind_from_range "." dir 0 (-1)) as [-> | H]; unfold PyStr.len in *; lia.
Qed.

End Agreement.

(** [".MKV"] is a video for the engine as [".mkv"] is. *)
Lemma engine_test_ignores_extension_case_witness :
  STTEngine._is_video_file ("/media/clip" ++ ".MKV") =
  STTEngine._is_video_file ("/media/clip" ++ ".mkv").
Proof.
  apply (engine_test_ignores_extension_case "/media/clip" ".mkv" ".MKV"). reflexivity.
Defined.

(** ["/videos/clip.MP4"]: the engine and [utils.py] answer alike. *)
Lemma video_tests_agree_witness :
  STTEngine._is_video_file ("/videos/" ++ "clip.MP4") =
  utils.is_video_file ("/videos/" ++ "clip.MP4").
Proof.
  apply (proj2 video_tests_agree "/videos/" "clip.MP4");
    [right; reflexivity | reflexivity | discriminate | reflexivity].
Defined.
